(** * Invoice automation pipeline (OCR, AI structuring, RPA orchestration)

    A shallow embedding of the Python sources

      - [ocr/ocr_engine.py]            (text and field extraction),
      - [ai/azure_openai_validator.py] (schema validation, retry, rules),
      - [preprocessing/image_processor.py] (deskew),
      - [rpa/invoice_processors.py]    (orchestration and statistics),
      - [config.py]                    (thresholds),

    followed by the properties the specification states about them.

    Conventions of the embedding:
      - a Python [str] is a [string]; the regular expressions and
        [strptime] work on its list of characters; [\d] is [0-9] and
        [\s] the white space of the ASCII range;
      - a Python [float] is an exact rational [Q];
      - a Python exception is a value [exn] carried by [Raise];
      - the dictionary of extracted fields is a [gmap string InvoiceField];
      - the external collaborators (Tesseract, the chat completion
        service, OpenCV, pdf2image) are arguments of the functions that
        call them. *)

From Stdlib Require Import ZArith QArith Qabs Qminmax Lqa Ascii String List Bool Lia.
From stdpp Require Import base option list strings gmap fin_maps.

Local Open Scope string_scope.
Local Open Scope list_scope.

(** ** Exceptions and fallible computations *)

(** What pydantic reports about one field of a model. *)
Inductive field_error : Type :=
| Missing (field : string)                 (* the field is required *)
| WrongType (field : string)               (* the value is not of the type *)
| Constraint (field : string)              (* pattern, gt, ge or le fails *)
| ValueErr (field : string) (v expected : Q).
                                           (* a field validator raised *)

(** A Python exception, a subclass of [Exception]; where a result or a
    note holds [str(e)], the model holds [e]. *)
Inductive exn : Type :=
| Exception (class_name message : string)  (* raised by a collaborator *)
| ValidationError (e : list field_error)   (* raised by pydantic *)
| RetryError (last : exn).                 (* raised by tenacity *)

Inductive result (A : Type) : Type :=
| Ok (a : A)
| Raise (e : exn).
Arguments Ok {A} a.
Arguments Raise {A} e.

Definition rbind {A B : Type} (m : result A) (f : A -> result B) : result B :=
  match m with
  | Ok a => f a
  | Raise e => Raise e
  end.

Declare Scope result_scope.
Delimit Scope result_scope with result.
Notation "'do' x <- m ; k" := (rbind m (fun x => k))
  (at level 10, x name, m at level 100, k at level 200) : result_scope.

(** ** Characters and text *)

Module Text.

Definition chars (s : string) : list ascii := list_ascii_of_string s.
Definition text (l : list ascii) : string := string_of_list_ascii l.

Definition code (c : ascii) : nat := nat_of_ascii c.

(** [\d] *)
Definition is_digit (c : ascii) : bool :=
  (48 <=? code c)%nat && (code c <=? 57)%nat.

(** [\s], also the characters removed by [str.strip()] *)
Definition is_space (c : ascii) : bool :=
  ((9 <=? code c)%nat && (code c <=? 13)%nat)
  || ((28 <=? code c)%nat && (code c <=? 32)%nat).

Definition is_upper (c : ascii) : bool :=
  (65 <=? code c)%nat && (code c <=? 90)%nat.

(** [str.lower()] on one character *)
Definition lower (c : ascii) : ascii :=
  if is_upper c then ascii_of_nat (code c + 32) else c.


Fixpoint lstrip (l : list ascii) : list ascii :=
  match l with
  | c :: l' => if is_space c then lstrip l' else l
  | [] => []
  end.

(** [str.strip()] *)
Definition strip (s : string) : string :=
  text (rev (lstrip (rev (lstrip (chars s))))).

(** [int(...)] of a run of decimal digits *)
Definition digits_to_nat (l : list ascii) : nat :=
  fold_left (fun acc c => (10 * acc + (code c - 48))%nat) l 0%nat.

Definition digit_char (n : nat) : ascii := ascii_of_nat (48 + n mod 10).

End Text.

(** ** Regular expressions: the fragment of [re] the sources use *)

Module Re.
Import Text.

Inductive regex : Type :=
| Eps
| Chr (c : ascii)              (* a literal, compared case-insensitively *)
| Cls (p : ascii -> bool)      (* a character class *)
| Seq (r1 r2 : regex)
| Alt (r1 r2 : regex)          (* r1|r2, r1 tried first *)
| Star (r : regex)             (* greedy r* *)
| Group (i : nat) (r : regex). (* capturing group number i *)

Definition caps : Type := list (nat * list ascii).

(** Backtracking matcher: [k] is the rest of the pattern; the first
    alternative that lets [k] succeed is the match, as in [re]. *)
Fixpoint rmatch {A : Type} (r : regex) (s : list ascii) (c : caps)
    (k : list ascii -> caps -> option A) {struct r} : option A :=
  match r with
  | Eps => k s c
  | Chr a =>
      match s with
      | x :: s' => if Ascii.eqb (lower x) (lower a) then k s' c else None
      | [] => None
      end
  | Cls p =>
      match s with
      | x :: s' => if p x then k s' c else None
      | [] => None
      end
  | Seq r1 r2 => rmatch r1 s c (fun s1 c1 => rmatch r2 s1 c1 k)
  | Alt r1 r2 =>
      match rmatch r1 s c k with
      | Some a => Some a
      | None => rmatch r2 s c k
      end
  | Star r1 =>
      (fix star (n : nat) (s : list ascii) (c : caps) {struct n} : option A :=
         match n with
         | O => k s c
         | S n' =>
             match rmatch r1 s c
                     (fun s1 c1 =>
                        if (length s1 <? length s)%nat
                        then star n' s1 c1 else None) with
             | Some a => Some a
             | None => k s c
             end
         end) (length s) s c
  | Group i r1 =>
      rmatch r1 s c
        (fun s1 c1 => k s1 ((i, firstn (length s - length s1) s) :: c1))
  end.

(** Derived forms *)
Definition Opt (r : regex) : regex := Alt r Eps.          (* r?  *)
Definition Plus (r : regex) : regex := Seq r (Star r).    (* r+  *)

Fixpoint Rep (n : nat) (r : regex) : regex :=             (* r{n} *)
  match n with
  | O => Eps
  | S n' => Seq r (Rep n' r)
  end.

Fixpoint UpTo (n : nat) (r : regex) : regex :=            (* r{0,n} *)
  match n with
  | O => Eps
  | S n' => Opt (Seq r (UpTo n' r))
  end.

Definition Range (lo hi : nat) (r : regex) : regex :=     (* r{lo,hi} *)
  Seq (Rep lo r) (UpTo (hi - lo) r).

Fixpoint Lit (l : list ascii) : regex :=
  match l with
  | [] => Eps
  | c :: l' => Seq (Chr c) (Lit l')
  end.

Definition Word (s : string) : regex := Lit (chars s).

Definition one_of (s : string) : regex :=
  Cls (fun c => existsb (Ascii.eqb c) (chars s)).

Definition between (lo hi : string) : regex :=
  Cls (fun c =>
         match chars lo, chars hi with
         | a :: _, b :: _ => (code a <=? code c)%nat && (code c <=? code b)%nat
         | _, _ => false
         end).

Definition digit : regex := Cls is_digit.
Definition space : regex := Cls is_space.

(** A match object: the whole match and the groups that took part. *)
Record match_obj : Type := { whole : list ascii; groups : caps }.

(** [re.match]: anchored at the start; also gives what is left over. *)
Definition re_match (r : regex) (s : list ascii)
  : option (match_obj * list ascii) :=
  rmatch r s []
    (fun s' c =>
       Some ({| whole := firstn (length s - length s') s; groups := c |}, s')).

(** [re.search]: the leftmost start position that matches. *)
Fixpoint re_search (r : regex) (s : list ascii) : option match_obj :=
  match re_match r s with
  | Some (m, _) => Some m
  | None =>
      match s with
      | [] => None
      | _ :: s' => re_search r s'
      end
  end.

Fixpoint group (i : nat) (c : caps) : option (list ascii) :=
  match c with
  | [] => None
  | (j, v) :: c' => if (i =? j)%nat then Some v else group i c'
  end.

End Re.

(** ** Dates: [datetime.strptime] and [strftime] on the formats used *)

Module Dates.
Import Text Re.

(** Directives of a format string, and literal characters. *)
Inductive directive : Type :=
| Dd            (* %d *)
| Dm            (* %m *)
| DY            (* %Y *)
| Dy            (* %y *)
| Dc (c : ascii).

Definition g_d : nat := 1.
Definition g_m : nat := 2.
Definition g_Y : nat := 3.
Definition g_y : nat := 4.

(** The regular expression [_strptime] compiles a directive to:
    %d is [3[0-1]|[1-2]\d|0[1-9]|[1-9]| [1-9]], %m is
    [1[0-2]|0[1-9]|[1-9]], %Y is [\d\d\d\d], %y is [\d\d]. *)
Definition directive_re (d : directive) : regex :=
  match d with
  | Dd => Group g_d
            (Alt (Seq (Word "3") (between "0" "1"))
            (Alt (Seq (between "1" "2") digit)
            (Alt (Seq (Word "0") (between "1" "9"))
            (Alt (between "1" "9")
                 (Seq (Word " ") (between "1" "9"))))))
  | Dm => Group g_m
            (Alt (Seq (Word "1") (between "0" "2"))
            (Alt (Seq (Word "0") (between "1" "9"))
                 (between "1" "9")))
  | DY => Group g_Y (Rep 4 digit)
  | Dy => Group g_y (Rep 2 digit)
  | Dc c => Chr c
  end.

Fixpoint format_re (f : list directive) : regex :=
  match f with
  | [] => Eps
  | d :: f' => Seq (directive_re d) (format_re f')
  end.

Record date : Type := { year : nat; month : nat; day : nat }.

Definition is_leap (y : nat) : bool :=
  ((y mod 4 =? 0) && negb (y mod 100 =? 0) || (y mod 400 =? 0))%nat.

Definition days_in_month (y m : nat) : nat :=
  match m with
  | 1 | 3 | 5 | 7 | 8 | 10 | 12 => 31
  | 4 | 6 | 9 | 11 => 30
  | 2 => if is_leap y then 29 else 28
  | _ => 0
  end.

(** The range check of the [datetime] constructor. *)
Definition valid_date (dt : date) : bool :=
  ((1 <=? year dt) && (year dt <=? 9999)
   && (1 <=? month dt) && (month dt <=? 12)
   && (1 <=? day dt) && (day dt <=? days_in_month (year dt) (month dt)))%nat.

(** [int] of a captured group; a leading blank, as %d allows, is skipped. *)
Definition group_int (i : nat) (c : caps) : option nat :=
  option_map (fun v => digits_to_nat (lstrip v)) (group i c).

(** The year: %Y as it is; %y with the POSIX pivot (0..68 is 20xx). *)
Definition year_of (c : caps) : option nat :=
  match group_int g_Y c with
  | Some y => Some y
  | None =>
      match group_int g_y c with
      | Some y => Some (if (y <=? 68)%nat then 2000 + y else 1900 + y)%nat
      | None => None
      end
  end.

(** [datetime.strptime(s, fmt)]; [None] stands for [ValueError]: the
    pattern does not match at the start, unconverted data remains, or
    the date is out of range. *)
Definition strptime (s : string) (f : list directive) : option date :=
  match re_match (format_re f) (chars s) with
  | Some (m, []) =>
      match year_of (groups m), group_int g_m (groups m),
            group_int g_d (groups m) with
      | Some y, Some mo, Some d =>
          let dt := {| year := y; month := mo; day := d |} in
          if valid_date dt then Some dt else None
      | _, _, _ => None
      end
  | _ => None
  end.

Definition pad2 (n : nat) : list ascii :=
  [digit_char (n / 10); digit_char n].

Definition pad4 (n : nat) : list ascii :=
  [digit_char (n / 1000); digit_char (n / 100); digit_char (n / 10);
   digit_char n].

(** [dt.strftime('%Y-%m-%d')], the year written with four digits. *)
Definition strftime_iso (dt : date) : string :=
  text (pad4 (year dt) ++ "-"%char :: pad2 (month dt)
        ++ "-"%char :: pad2 (day dt)).

End Dates.

(** ** [ocr/ocr_engine.py] *)

Module Ocr.
Import Text Re Dates.

Definition bbox : Type := (Z * Z * Z * Z)%type.

(** A grey-level image ([np.ndarray]): rows of pixel values. *)
Definition image : Type := list (list Z).

(** One row of the table [pytesseract.image_to_data] returns: index [i]
    of the parallel lists [data['text']], [data['conf']], ...; [t_conf]
    is [int(data['conf'][i])]. *)
Record tess_row : Type := {
  t_text : string; t_conf : Z;
  t_left : Z; t_top : Z; t_width : Z; t_height : Z;
  t_block_num : Z; t_line_num : Z }.

(** An entry of [word_data]. *)
Record word : Type := {
  w_text : string; w_confidence : Z; w_bbox : bbox;
  w_block_num : Z; w_line_num : Z }.

Record OCRResult : Type := {
  ocr_text : string;
  confidence : Q;
  word_data : list word;
  layout_data : list tess_row }.

Record InvoiceField : Type := {
  value : string;
  field_confidence : Q;
  field_bbox : bbox;
  field_type : string }.

(** The Tesseract collaborator. *)
Record tesseract : Type := {
  image_to_data : image -> result (list tess_row);
  image_to_string : image -> result string }.

Definition sumZ (l : list Z) : Z := fold_right Z.add 0%Z l.

(** [np.mean] of a list of integers *)
Definition np_mean (l : list Z) : Q :=
  (inject_Z (sumZ l) / inject_Z (Z.of_nat (length l)))%Q.

Definition word_of_row (r : tess_row) : word :=
  {| w_text := t_text r; w_confidence := t_conf r;
     w_bbox := (t_left r, t_top r, t_width r, t_height r);
     w_block_num := t_block_num r; w_line_num := t_line_num r |}.

(** The body of the loop [for i in range(len(data['text']))]: the
    accumulators are [word_data] and [confidences]. *)
Definition extract_text_step (acc : list word * list Z) (r : tess_row)
  : list word * list Z :=
  let conf := t_conf r in
  if (0 <? conf)%Z
  then (acc.1 ++ [word_of_row r], acc.2 ++ [conf])
  else acc.

Definition extract_text (t : tesseract) (img : image) : result OCRResult :=
  (do data <- image_to_data t img;
   do txt <- image_to_string t img;
   let '(words, confidences) := fold_left extract_text_step data ([], []) in
   let avg_confidence :=
     match confidences with
     | [] => 0%Q
     | _ :: _ => np_mean confidences
     end in
   Ok {| ocr_text := txt; confidence := avg_confidence;
         word_data := words; layout_data := data |})%result.

(** *** Patterns *)

(** A compiled pattern as [_extract_field] uses it: the text is mapped
    to the value of the first match, [match.group(1)] when the pattern
    has a group and [match.group(0)] otherwise. *)
Definition pattern : Type := string -> option string.

Fixpoint has_group (r : regex) : bool :=
  match r with
  | Group _ _ => true
  | Seq r1 r2 | Alt r1 r2 => has_group r1 || has_group r2
  | Star r1 => has_group r1
  | _ => false
  end.

Definition compile (r : regex) : pattern :=
  fun txt =>
    match re_search r (chars txt) with
    | Some m =>
        if has_group r
        then option_map text (group 1 (groups m))
        else Some (text (whole m))
    | None => None
    end.

Definition sep : regex := one_of "/-.".          (* [/\-\.] *)
Definition colon_space : regex :=                 (* [:\s]  *)
  Cls (fun c => Ascii.eqb c ":"%char || is_space c).

(** (\d{1,2}[/\-\.]\d{1,2}[/\-\.]\d{2,4}) *)
Definition date_dmy : regex :=
  Group 1 (Seq (Range 1 2 digit) (Seq sep (Seq (Range 1 2 digit)
          (Seq sep (Range 2 4 digit))))).

(** (\d{4}[/\-\.]\d{1,2}[/\-\.]\d{1,2}) *)
Definition date_ymd : regex :=
  Group 1 (Seq (Rep 4 digit) (Seq sep (Seq (Range 1 2 digit)
          (Seq sep (Range 1 2 digit))))).

(** (?:p\.?\s*iva|partita\s+iva|vat)[:\s]*(\d{11}) *)
Definition vat_piva : regex :=
  Seq (Alt (Seq (Word "p") (Seq (Opt (Word ".")) (Seq (Star space) (Word "iva"))))
      (Alt (Seq (Word "partita") (Seq (Plus space) (Word "iva")))
           (Word "vat")))
      (Seq (Star colon_space) (Group 1 (Rep 11 digit))).

(** (?:tax\s+id|fiscal\s+code)[:\s]*(\d{11}) *)
Definition vat_taxid : regex :=
  Seq (Alt (Seq (Word "tax") (Seq (Plus space) (Word "id")))
           (Seq (Word "fiscal") (Seq (Plus space) (Word "code"))))
      (Seq (Star colon_space) (Group 1 (Rep 11 digit))).

(** The state of an [InvoiceOCREngine]: [self.patterns], in insertion
    order.  The patterns of 'invoice_number', 'amount' and 'email' are
    arguments of the constructor here; [float_2f s] is
    [f"{float(s):.2f}"], [None] when [float] raises [ValueError]. *)
Record InvoiceOCREngine : Type := {
  patterns : list (string * list pattern);
  float_2f : string -> option string;
  engine : tesseract }.

Definition init (invoice_number amount email : list pattern)
    (fmt : string -> option string) (t : tesseract) : InvoiceOCREngine :=
  {| patterns :=
       [ ("invoice_number", invoice_number);
         ("date", [compile date_dmy; compile date_ymd]);
         ("vat_number", [compile vat_piva; compile vat_taxid]);
         ("amount", amount);
         ("email", email) ];
     float_2f := fmt;
     engine := t |}.

(** *** Field extraction *)

Definition lower_str (s : string) : list ascii := map lower (chars s).

Fixpoint starts_with (p l : list ascii) : bool :=
  match p, l with
  | [], _ => true
  | a :: p', b :: l' => Ascii.eqb a b && starts_with p' l'
  | _ :: _, [] => false
  end.

(** [p in l] on strings *)
Fixpoint substring_of (p l : list ascii) : bool :=
  starts_with p l
  || match l with
     | [] => false
     | _ :: l' => substring_of p l'
     end.

(** [str.split()]: the maximal runs of characters that are not blank *)
Fixpoint split_ws (cur : list ascii) (l : list ascii) : list (list ascii) :=
  match l with
  | [] => match cur with [] => [] | _ :: _ => [rev cur] end
  | c :: l' =>
      if is_space c
      then match cur with
           | [] => split_ws [] l'
           | _ :: _ => rev cur :: split_ws [] l'
           end
      else split_ws (c :: cur) l'
  end.

Definition split (s : string) : list (list ascii) := split_ws [] (chars s).

Fixpoint _find_bbox_for_text (txt : string) (words : list word) : bbox :=
  match words with
  | [] => (0, 0, 0, 0)%Z
  | w :: words' =>
      if substring_of (lower_str txt) (lower_str (w_text w))
      then w_bbox w
      else _find_bbox_for_text txt words'
  end.

Definition _calculate_field_confidence (v : string) (words : list word) : Q :=
  let matching_words :=
    List.filter
      (fun w =>
         existsb (fun part =>
                    substring_of (map lower part) (lower_str (w_text w)))
                 (split v)) words in
  match matching_words with
  | [] => 0%Q
  | _ :: _ => np_mean (map w_confidence matching_words)
  end.

Fixpoint _extract_field (txt : string) (pats : list pattern)
    (words : list word) (ftype : string) : option InvoiceField :=
  match pats with
  | [] => None
  | p :: pats' =>
      match p txt with
      | Some v =>
          Some {| value := strip v;
                  field_confidence := _calculate_field_confidence v words;
                  field_bbox := _find_bbox_for_text v words;
                  field_type := ftype |}
      | None => _extract_field txt pats' words ftype
      end
  end.

(** *** Post-processing *)

Definition formats : list (list directive) :=
  [ [Dd; Dc "/"; Dm; Dc "/"; DY];     (* '%d/%m/%Y' *)
    [Dd; Dc "-"; Dm; Dc "-"; DY];     (* '%d-%m-%Y' *)
    [Dd; Dc "."; Dm; Dc "."; DY];     (* '%d.%m.%Y' *)
    [DY; Dc "-"; Dm; Dc "-"; Dd];     (* '%Y-%m-%d' *)
    [Dd; Dc "/"; Dm; Dc "/"; Dy] ].   (* '%d/%m/%y' *)

(** The loop [for fmt in formats: try ... except ValueError: continue]. *)
Fixpoint normalize_date_loop (date_str : string) (fmts : list (list directive))
  : option string :=
  match fmts with
  | [] => None
  | fmt :: fmts' =>
      match strptime date_str fmt with
      | Some dt => Some (strftime_iso dt)
      | None => normalize_date_loop date_str fmts'
      end
  end.

Definition _normalize_date (date_str : string) : option string :=
  normalize_date_loop date_str formats.

(** A call of [self.logger.warning]. *)
Record warning : Type := Warning { event : string; detail : string }.

Definition set_value (f : InvoiceField) (v : string) : InvoiceField :=
  {| value := v; field_confidence := field_confidence f;
     field_bbox := field_bbox f; field_type := field_type f |}.

(** [re.sub(r'[^\d]', '', vat)] *)
Definition only_digits (s : string) : string :=
  text (List.filter is_digit (chars s)).

(** [s.replace('.', '').replace(',', '.')] *)
Definition decimal_point (s : string) : string :=
  text (map (fun c => if Ascii.eqb c ","%char then "."%char else c)
            (List.filter (fun c => negb (Ascii.eqb c "."%char)) (chars s))).

Definition post_vat (fields : gmap string InvoiceField)
  : gmap string InvoiceField * list warning :=
  match fields !! "vat_number" with
  | Some f =>
      let vat := only_digits (value f) in
      if (String.length vat =? 11)%nat
      then (<["vat_number" := set_value f vat]> fields, [])
      else (fields, [Warning "P.IVA non valida" vat])
  | None => (fields, [])
  end.

Definition post_date (fields : gmap string InvoiceField)
  : gmap string InvoiceField :=
  match fields !! "date" with
  | Some f =>
      match _normalize_date (value f) with
      | Some date_normalized =>
          if String.eqb date_normalized ""
          then fields
          else <["date" := set_value f date_normalized]> fields
      | None => fields
      end
  | None => fields
  end.

Definition post_amount (fmt : string -> option string)
    (fields : gmap string InvoiceField)
  : gmap string InvoiceField * list warning :=
  match fields !! "amount" with
  | Some f =>
      let amount_str := decimal_point (value f) in
      match fmt amount_str with
      | Some formatted => (<["amount" := set_value f formatted]> fields, [])
      | None => (fields, [Warning "Importo non valido" amount_str])
      end
  | None => (fields, [])
  end.

Definition _post_process_fields (self : InvoiceOCREngine)
    (fields : gmap string InvoiceField)
  : gmap string InvoiceField * list warning :=
  let '(fields1, w1) := post_vat fields in
  let fields2 := post_date fields1 in
  let '(fields3, w3) := post_amount (float_2f self) fields2 in
  (fields3, w1 ++ w3).

(** The loop over [self.patterns.items()]. *)
Definition collect_fields (pats : list (string * list pattern))
    (txt : string) (words : list word) : gmap string InvoiceField :=
  fold_left
    (fun fields '(ftype, ps) =>
       match _extract_field txt ps words ftype with
       | Some f => <[ftype := f]> fields
       | None => fields
       end)
    pats ∅.

Definition extract_invoice_fields (self : InvoiceOCREngine)
    (txt : string) (words : list word)
  : gmap string InvoiceField * list warning :=
  _post_process_fields self (collect_fields (patterns self) txt words).

End Ocr.

(** ** [config.py]: the settings the pipeline reads *)

Module Config.

Record Settings : Type := {
  OCR_CONFIDENCE_THRESHOLD : Q;
  VAT_RATE : Q;
  MAX_INVOICE_AMOUNT : Q;
  AUTO_APPROVE_THRESHOLD : Q }.

(** The defaults of the class [Settings]. *)
Definition settings : Settings :=
  {| OCR_CONFIDENCE_THRESHOLD := 70;
     VAT_RATE := 22 # 100;
     MAX_INVOICE_AMOUNT := 100000;
     AUTO_APPROVE_THRESHOLD := 5000 |}.

End Config.

(** ** Comparisons on floats *)

Module Num.

Definition Qltb (a b : Q) : bool := negb (Qle_bool b a).   (* a < b *)
Definition Qleb (a b : Q) : bool := Qle_bool a b.          (* a <= b *)

(** The rounding tolerance [0.01] of the field validators. *)
Definition tolerance : Q := 1 # 100.

End Num.

(** ** [ai/azure_openai_validator.py] *)

Module Ai.
Import Text Re Num Config.

(** *** The schema [InvoiceData] *)

(** An entry of [validation_notes]; each constructor but the first
    stands for the text one f-string of the sources produces. *)
Inductive note : Type :=
| NoteText (s : string)                (* a note the collaborator wrote *)
| NoteValidation (e : list field_error)(* str(e) of a ValidationError *)
| NoteAutoApprove (total : Q)          (* "Importo ... supera soglia auto-approvazione" *)
| NoteMaxAmount (total : Q)            (* "Importo ... supera limite massimo" *)
| NoteOcrConfidence (c : Q)            (* "Confidence OCR bassa: ..." *)
| NoteAiConfidence (c : Q)             (* "Confidence AI bassa: ..." *)
| NoteSimilarity (c : Q).              (* "Bassa coerenza semantica: ..." *)

(** An item of [line_items]: a dictionary kept as it came. *)
Definition Dict : Type := list (string * string).

Record InvoiceData : Type := {
  invoice_number : string;
  invoice_date : string;
  supplier_name : string;
  supplier_vat : string;
  supplier_address : option string;
  customer_name : string;
  customer_vat : string;
  customer_address : option string;
  subtotal : Q;
  vat_rate : Q;
  vat_amount : Q;
  total_amount : Q;
  line_items : list Dict;
  payment_terms : option string;
  due_date : option string;
  currency : string;
  ocr_confidence : Q;
  ai_validation_score : Q;
  validation_notes : list note;
  requires_manual_review : bool }.

(** A key of the dictionary [validated_data] as the schema sees it:
    the key is absent, or its value is not of the type of the field
    ([Malformed], for instance [null] where a string is required), or
    it is a value [a] of that type. *)
Inductive raw (A : Type) : Type :=
| Absent
| Malformed
| Present (a : A).
Arguments Absent {A}.
Arguments Malformed {A}.
Arguments Present {A} a.

(** The dictionary [json.loads] gives: the keys of the schema and
    'confidence_score'; other keys are ignored by the schema. *)
Record json_invoice : Type := {
  j_invoice_number : raw string;
  j_invoice_date : raw string;
  j_supplier_name : raw string;
  j_supplier_vat : raw string;
  j_supplier_address : raw (option string);
  j_customer_name : raw string;
  j_customer_vat : raw string;
  j_customer_address : raw (option string);
  j_subtotal : raw Q;
  j_vat_rate : raw Q;
  j_vat_amount : raw Q;
  j_total_amount : raw Q;
  j_line_items : raw (list Dict);
  j_payment_terms : raw (option string);
  j_due_date : raw (option string);
  j_currency : raw string;
  j_ocr_confidence : raw Q;
  j_ai_validation_score : raw Q;
  j_validation_notes : raw (list note);
  j_requires_manual_review : raw bool;
  j_confidence_score : raw Q }.

(** The outcome of validating one field. *)
Definition checked (A : Type) : Type := (A + field_error)%type.

Definition valid {A : Type} (c : checked A) : option A :=
  match c with inl a => Some a | inr _ => None end.

Definition error_of {A : Type} (c : checked A) : list field_error :=
  match c with inl _ => [] | inr e => [e] end.

(** The core validation of a field: presence or default, type, then the
    constraints of [Field(...)]. *)
Definition field {A : Type} (name : string) (default : option A)
    (constraint : A -> bool) (r : raw A) : checked A :=
  match r with
  | Present a => if constraint a then inl a else inr (Constraint name)
  | Malformed => inr (WrongType name)
  | Absent =>
      match default with
      | Some a => inl a
      | None => inr (Missing name)
      end
  end.

(** A [field_validator] in 'after' mode runs on a value that passed. *)
Definition after {A : Type} (c : checked A) (validator : A -> checked A)
  : checked A :=
  match c with
  | inl a => validator a
  | inr e => inr e
  end.

(** A pattern anchored at both ends ([^...$]). *)
Definition full_match (r : regex) (s : string) : bool :=
  match rmatch r (chars s) []
          (fun s' _ => match s' with [] => Some tt | _ :: _ => None end) with
  | Some _ => true
  | None => false
  end.

Definition iso_date_re : regex :=          (* ^\d{4}-\d{2}-\d{2}$ *)
  Seq (Rep 4 digit) (Seq (Chr "-") (Seq (Rep 2 digit)
      (Seq (Chr "-") (Rep 2 digit)))).
Definition vat_id_re : regex := Rep 11 digit.                (* ^\d{11}$ *)
Definition currency_re : regex := Rep 3 (between "A" "Z").   (* ^[A-Z]{3}$ *)

Definition any {A : Type} (_ : A) : bool := true.

(** [validate_vat]: [data_subtotal] and [data_rate] are the entries of
    [info.data], there only when these fields passed. *)
Definition validate_vat (data_subtotal data_rate : option Q) (v : Q)
  : checked Q :=
  match data_subtotal, data_rate with
  | Some s, Some r =>
      let expected_vat := (s * r)%Q in
      if Qltb tolerance (Qabs (v - expected_vat))
      then inr (ValueErr "vat_amount" v expected_vat)
      else inl v
  | _, _ => inl v
  end.

(** [validate_total] *)
Definition validate_total (data_subtotal data_vat : option Q) (v : Q)
  : checked Q :=
  match data_subtotal, data_vat with
  | Some s, Some va =>
      let expected_total := (s + va)%Q in
      if Qltb tolerance (Qabs (v - expected_total))
      then inr (ValueErr "total_amount" v expected_total)
      else inl v
  | _, _ => inl v
  end.

(** The fields, validated in the order of their declaration. *)
Record checks : Type := {
  c_invoice_number : checked string;
  c_invoice_date : checked string;
  c_supplier_name : checked string;
  c_supplier_vat : checked string;
  c_supplier_address : checked (option string);
  c_customer_name : checked string;
  c_customer_vat : checked string;
  c_customer_address : checked (option string);
  c_subtotal : checked Q;
  c_vat_rate : checked Q;
  c_vat_amount : checked Q;
  c_total_amount : checked Q;
  c_line_items : checked (list Dict);
  c_payment_terms : checked (option string);
  c_due_date : checked (option string);
  c_currency : checked string;
  c_ocr_confidence : checked Q;
  c_ai_validation_score : checked Q;
  c_validation_notes : checked (list note);
  c_requires_manual_review : checked bool }.

Definition check_fields (d : json_invoice) : checks :=
  let subtotal := field "subtotal" None (Qltb 0) (j_subtotal d) in
  let vat_rate :=
    field "vat_rate" (Some (22 # 100))
      (fun q => Qleb 0 q && Qleb q 1) (j_vat_rate d) in
  let vat_amount :=
    after (field "vat_amount" None (Qleb 0) (j_vat_amount d))
      (validate_vat (valid subtotal) (valid vat_rate)) in
  let total_amount :=
    after (field "total_amount" None (Qltb 0) (j_total_amount d))
      (validate_total (valid subtotal) (valid vat_amount)) in
  {| c_invoice_number := field "invoice_number" None any (j_invoice_number d);
     c_invoice_date :=
       field "invoice_date" None (full_match iso_date_re) (j_invoice_date d);
     c_supplier_name := field "supplier_name" None any (j_supplier_name d);
     c_supplier_vat :=
       field "supplier_vat" None (full_match vat_id_re) (j_supplier_vat d);
     c_supplier_address :=
       field "supplier_address" (Some None) any (j_supplier_address d);
     c_customer_name := field "customer_name" None any (j_customer_name d);
     c_customer_vat :=
       field "customer_vat" None (full_match vat_id_re) (j_customer_vat d);
     c_customer_address :=
       field "customer_address" (Some None) any (j_customer_address d);
     c_subtotal := subtotal;
     c_vat_rate := vat_rate;
     c_vat_amount := vat_amount;
     c_total_amount := total_amount;
     c_line_items := field "line_items" (Some []) any (j_line_items d);
     c_payment_terms :=
       field "payment_terms" (Some None) any (j_payment_terms d);
     c_due_date := field "due_date" (Some None) any (j_due_date d);
     c_currency :=
       field "currency" (Some "EUR") (full_match currency_re) (j_currency d);
     c_ocr_confidence :=
       field "ocr_confidence" None
         (fun q => Qleb 0 q && Qleb q 100) (j_ocr_confidence d);
     c_ai_validation_score :=
       field "ai_validation_score" None
         (fun q => Qleb 0 q && Qleb q 1) (j_ai_validation_score d);
     c_validation_notes :=
       field "validation_notes" (Some []) any (j_validation_notes d);
     c_requires_manual_review :=
       field "requires_manual_review" (Some false) any
         (j_requires_manual_review d) |}.

(** The errors a [ValidationError] lists. *)
Definition errors (c : checks) : list field_error :=
  error_of (c_invoice_number c) ++ error_of (c_invoice_date c)
  ++ error_of (c_supplier_name c) ++ error_of (c_supplier_vat c)
  ++ error_of (c_supplier_address c) ++ error_of (c_customer_name c)
  ++ error_of (c_customer_vat c) ++ error_of (c_customer_address c)
  ++ error_of (c_subtotal c) ++ error_of (c_vat_rate c)
  ++ error_of (c_vat_amount c) ++ error_of (c_total_amount c)
  ++ error_of (c_line_items c) ++ error_of (c_payment_terms c)
  ++ error_of (c_due_date c) ++ error_of (c_currency c)
  ++ error_of (c_ocr_confidence c) ++ error_of (c_ai_validation_score c)
  ++ error_of (c_validation_notes c)
  ++ error_of (c_requires_manual_review c).

(** The model, when every field passed. *)
Definition build (c : checks) : option InvoiceData :=
  a1 ← valid (c_invoice_number c);
  a2 ← valid (c_invoice_date c);
  a3 ← valid (c_supplier_name c);
  a4 ← valid (c_supplier_vat c);
  a5 ← valid (c_supplier_address c);
  a6 ← valid (c_customer_name c);
  a7 ← valid (c_customer_vat c);
  a8 ← valid (c_customer_address c);
  a9 ← valid (c_subtotal c);
  a10 ← valid (c_vat_rate c);
  a11 ← valid (c_vat_amount c);
  a12 ← valid (c_total_amount c);
  a13 ← valid (c_line_items c);
  a14 ← valid (c_payment_terms c);
  a15 ← valid (c_due_date c);
  a16 ← valid (c_currency c);
  a17 ← valid (c_ocr_confidence c);
  a18 ← valid (c_ai_validation_score c);
  a19 ← valid (c_validation_notes c);
  a20 ← valid (c_requires_manual_review c);
  Some {| invoice_number := a1; invoice_date := a2; supplier_name := a3;
          supplier_vat := a4; supplier_address := a5; customer_name := a6;
          customer_vat := a7; customer_address := a8; subtotal := a9;
          vat_rate := a10; vat_amount := a11; total_amount := a12;
          line_items := a13; payment_terms := a14; due_date := a15;
          currency := a16; ocr_confidence := a17;
          ai_validation_score := a18; validation_notes := a19;
          requires_manual_review := a20 |}.

(** [InvoiceData.model_validate(d)]: the model, or the errors of the
    [ValidationError] it raises.  The keyword [strict=False] of the
    second call in the sources is the default mode, so both calls are
    this function. *)
Definition model_validate (d : json_invoice)
  : InvoiceData + list field_error :=
  let c := check_fields d in
  match build c with
  | Some m => inl m
  | None => inr (errors c)
  end.

(** *** Business rules *)

(** [invoice.requires_manual_review = True] followed by
    [invoice.validation_notes.append(n)]. *)
Definition flag_for_review (n : note) (i : InvoiceData) : InvoiceData :=
  {| invoice_number := invoice_number i; invoice_date := invoice_date i;
     supplier_name := supplier_name i; supplier_vat := supplier_vat i;
     supplier_address := supplier_address i;
     customer_name := customer_name i; customer_vat := customer_vat i;
     customer_address := customer_address i; subtotal := subtotal i;
     vat_rate := vat_rate i; vat_amount := vat_amount i;
     total_amount := total_amount i; line_items := line_items i;
     payment_terms := payment_terms i; due_date := due_date i;
     currency := currency i; ocr_confidence := ocr_confidence i;
     ai_validation_score := ai_validation_score i;
     validation_notes := validation_notes i ++ [n];
     requires_manual_review := true |}.

(** One [if cond: flag; append note]. *)
Definition rule (cond : bool) (n : note) (i : InvoiceData) : InvoiceData :=
  if cond then flag_for_review n i else i.

Definition rule_auto_approve (s : Settings) (i : InvoiceData) : InvoiceData :=
  rule (Qltb (AUTO_APPROVE_THRESHOLD s) (total_amount i))
       (NoteAutoApprove (total_amount i)) i.

Definition rule_max_amount (s : Settings) (i : InvoiceData) : InvoiceData :=
  rule (Qltb (MAX_INVOICE_AMOUNT s) (total_amount i))
       (NoteMaxAmount (total_amount i)) i.

Definition rule_ocr_confidence (s : Settings) (i : InvoiceData) : InvoiceData :=
  rule (Qltb (ocr_confidence i) (OCR_CONFIDENCE_THRESHOLD s))
       (NoteOcrConfidence (ocr_confidence i)) i.

Definition rule_ai_confidence (i : InvoiceData) : InvoiceData :=
  rule (Qltb (ai_validation_score i) (7 # 10))
       (NoteAiConfidence (ai_validation_score i)) i.

Definition _apply_business_rules (s : Settings) (invoice : InvoiceData)
  : InvoiceData :=
  rule_ai_confidence
    (rule_ocr_confidence s
       (rule_max_amount s
          (rule_auto_approve s invoice))).

(** *** The call of the collaborator and its validation *)

(** What one call of [self.client.chat.completions.create] followed by
    [json.loads] gives. *)
Inductive reply : Type :=
| CallFails (e : exn)          (* the call raises: network, service *)
| NotJson (e : exn)            (* the content does not decode to a dict *)
| Json (d : json_invoice).

(** [validated_data['ocr_confidence'] = ocr_confidence] and
    [validated_data['ai_validation_score'] =
       validated_data.get('confidence_score', 0.9)]. *)
Definition add_metadata (ocr_conf : Q) (d : json_invoice) : json_invoice :=
  {| j_invoice_number := j_invoice_number d;
     j_invoice_date := j_invoice_date d;
     j_supplier_name := j_supplier_name d;
     j_supplier_vat := j_supplier_vat d;
     j_supplier_address := j_supplier_address d;
     j_customer_name := j_customer_name d;
     j_customer_vat := j_customer_vat d;
     j_customer_address := j_customer_address d;
     j_subtotal := j_subtotal d; j_vat_rate := j_vat_rate d;
     j_vat_amount := j_vat_amount d; j_total_amount := j_total_amount d;
     j_line_items := j_line_items d; j_payment_terms := j_payment_terms d;
     j_due_date := j_due_date d; j_currency := j_currency d;
     j_ocr_confidence := Present ocr_conf;
     j_ai_validation_score :=
       match j_confidence_score d with
       | Absent => Present (9 # 10)
       | v => v
       end;
     j_validation_notes := j_validation_notes d;
     j_requires_manual_review := j_requires_manual_review d;
     j_confidence_score := j_confidence_score d |}.

(** [validated_data['requires_manual_review'] = True] and
    [validated_data['validation_notes'] = [str(e)]]. *)
Definition flag_dict (e : list field_error) (d : json_invoice) : json_invoice :=
  {| j_invoice_number := j_invoice_number d;
     j_invoice_date := j_invoice_date d;
     j_supplier_name := j_supplier_name d;
     j_supplier_vat := j_supplier_vat d;
     j_supplier_address := j_supplier_address d;
     j_customer_name := j_customer_name d;
     j_customer_vat := j_customer_vat d;
     j_customer_address := j_customer_address d;
     j_subtotal := j_subtotal d; j_vat_rate := j_vat_rate d;
     j_vat_amount := j_vat_amount d; j_total_amount := j_total_amount d;
     j_line_items := j_line_items d; j_payment_terms := j_payment_terms d;
     j_due_date := j_due_date d; j_currency := j_currency d;
     j_ocr_confidence := j_ocr_confidence d;
     j_ai_validation_score := j_ai_validation_score d;
     j_validation_notes := Present [NoteValidation e];
     j_requires_manual_review := Present true;
     j_confidence_score := j_confidence_score d |}.

(** The [try: model_validate ... except Exception as e: ...] block. *)
Definition validate_or_flag (validated_data : json_invoice) : result InvoiceData :=
  match model_validate validated_data with
  | inl invoice_data => Ok invoice_data
  | inr e =>
      match model_validate (flag_dict e validated_data) with
      | inl invoice_data => Ok invoice_data
      | inr e' => Raise (ValidationError e')
      end
  end.

(** The body of [validate_and_structure_invoice]: one attempt. *)
Definition attempt (s : Settings) (ocr_conf : Q) (r : reply)
  : result InvoiceData :=
  match r with
  | CallFails e => Raise e
  | NotJson e => Raise e
  | Json d =>
      (do invoice_data <- validate_or_flag (add_metadata ocr_conf d);
       Ok (_apply_business_rules s invoice_data))%result
  end.

(** *** The decorator [@retry] of tenacity *)

(** [wait_exponential(multiplier, min, max)] after attempt [n]:
    [max(max(0, min), min(multiplier * 2 ** (n - 1), max))]. *)
Definition wait_exponential (multiplier lo hi : Q) (n : nat) : Q :=
  Qmax (Qmax 0 lo)
       (Qmin (multiplier * inject_Z (2 ^ Z.of_nat (n - 1))) hi).

(** What the decorated call does, in order. *)
Inductive event : Type :=
| Attempt (n : nat)
| Sleep (seconds : Q).

(** The loop of [Retrying]: call; on an exception stop when the number
    of attempts is reached ([RetryError]), else sleep and call again.
    [left] is the number of attempts still allowed after attempt [n].
    No [retry=] predicate is given in the sources: every exception is
    retried. *)
Fixpoint retrying {A : Type} (wait : nat -> Q) (f : nat -> result A)
    (n left : nat) : result A * list event :=
  match f n with
  | Ok a => (Ok a, [Attempt n])
  | Raise e =>
      match left with
      | O => (Raise (RetryError e), [Attempt n])
      | S left' =>
          let '(r, tr) := retrying wait f (S n) left' in
          (r, Attempt n :: Sleep (wait n) :: tr)
      end
  end.

(** [@retry(stop=stop_after_attempt(3),
            wait=wait_exponential(multiplier=1, min=2, max=10))] *)
Definition retry {A : Type} (f : nat -> result A) : result A * list event :=
  retrying (wait_exponential 1 2 10) f 1 2.

(** The validator: its settings and its client; [complete txt fields n]
    is the reply to the [n]-th call for a document, [rate txt invoice]
    the content of the reply to the similarity prompt, parsed by
    [float] ([None] when [float] raises). *)
Record AzureOpenAIValidator : Type := {
  cfg : Settings;
  complete : string -> gmap string string -> nat -> reply;
  rate : string -> InvoiceData -> result (option Q) }.

Definition validate_and_structure_invoice (self : AzureOpenAIValidator)
    (txt : string) (extracted_fields : gmap string string) (ocr_conf : Q)
  : result InvoiceData * list event :=
  retry (fun n => attempt (cfg self) ocr_conf (complete self txt extracted_fields n)).

(** [min(max(similarity_score, 0.0), 1.0)], and 0.5 when the content is
    not a number. *)
Definition semantic_similarity_check (self : AzureOpenAIValidator)
    (txt : string) (validated_data : InvoiceData) : result Q :=
  (do content <- rate self txt validated_data;
   Ok match content with
      | Some similarity_score => Qmin (Qmax similarity_score 0) 1
      | None => 1 # 2
      end)%result.

End Ai.

(** ** [preprocessing/image_processor.py] *)

Module Image.
Import Num Ocr.

(** The OpenCV collaborator: [imread] ([None] when the file cannot be
    decoded); the steps before [_deskew] (resize, grey scale, denoise)
    and after it (binarize, borders, contrast, optional [imwrite]);
    the angle [cv2.minAreaRect(coords)[-1]] of the foreground pixels;
    the rotation [warpAffine] about the centre by an angle. *)
Record cv2 : Type := {
  imread : string -> option image;
  before_deskew : image -> result image;
  minAreaRect_angle : image -> result Q;
  warpAffine : image -> Q -> result image;
  after_deskew : image -> result image }.

(** The branch [if angle < -45: angle = -(90 + angle) else: angle = -angle]. *)
Definition correct_angle (angle : Q) : Q :=
  if Qltb angle (-45) then (- (90 + angle))%Q else (- angle)%Q.

(** [abs(angle) > 0.5] *)
Definition significant (angle : Q) : bool := Qltb (1 # 2) (Qabs angle).

Definition _deskew (cv : cv2) (img : image) : result image :=
  (do raw_angle <- minAreaRect_angle cv img;
   let angle := correct_angle raw_angle in
   if significant angle then warpAffine cv img angle else Ok img)%result.

Definition preprocess_invoice (cv : cv2) (image_path : string) : result image :=
  match imread cv image_path with
  | None => Raise (Exception "ValueError" "Impossibile caricare immagine")
  | Some img =>
      (do img1 <- before_deskew cv img;
       do img2 <- _deskew cv img1;
       after_deskew cv img2)%result
  end.

(** *** Slices, crops and regions *)

(** An index of a slice on a sequence of length [n], as Python adjusts
    it: a negative index counts from the end, and the index is clipped
    to the sequence. *)
Definition adjust_index (n i : Z) : Z :=
  if (i <? 0)%Z then Z.max 0 (i + n) else Z.min i n.

(** [l[start:stop]] *)
Definition slice {A : Type} (start stop : Z) (l : list A) : list A :=
  let n := Z.of_nat (length l) in
  let lo := adjust_index n start in
  let hi := adjust_index n stop in
  take (Z.to_nat (hi - lo)) (drop (Z.to_nat lo) l).

(** [l[start:]] *)
Definition slice_from {A : Type} (start : Z) (l : list A) : list A :=
  drop (Z.to_nat (adjust_index (Z.of_nat (length l)) start)) l.

(** [img.shape[0]] and [img.shape[1]] of a two-dimensional array. *)
Definition shape0 (img : image) : Z := Z.of_nat (length img).

Definition shape1 (img : image) : Z :=
  match img with
  | row :: _ => Z.of_nat (length row)
  | [] => 0
  end.

(** [img[y0:y1, x0:x1]] *)
Definition crop (y0 y1 x0 x1 : Z) (img : image) : image :=
  map (slice x0 x1) (slice y0 y1 img).

(** A contour, by what the code reads of it: [cv2.contourArea] and
    [cv2.boundingRect], which is [(x, y, w, h)]. *)
Record contour : Type := {
  contourArea : Q;
  boundingRect : Z * Z * Z * Z }.

(** [max(contours, key=cv2.contourArea)] on a list that starts with
    [c]: the first contour of the largest area. *)
Definition largest (c : contour) (cs : list contour) : contour :=
  fold_left
    (fun best c' =>
       if Qltb (contourArea best) (contourArea c') then c' else best)
    cs c.

(** [_remove_borders]; [findContours] is the collaborator. *)
Definition _remove_borders (findContours : image -> result (list contour))
    (img : image) : result image :=
  (do contours <- findContours img;
   match contours with
   | [] => Ok img
   | c :: cs =>
       let '(x, y, w, h) := boundingRect (largest c cs) in
       let margin := 10%Z in
       let y := Z.max 0 (y - margin) in
       let x := Z.max 0 (x - margin) in
       let h := Z.min (shape0 img - y) (h + 2 * margin) in
       let w := Z.min (shape1 img - x) (w + 2 * margin) in
       Ok (crop y (y + h) x (x + w) img)
   end)%result.

(** The dictionary [detect_document_regions] returns. *)
Record regions : Type := {
  header : image;
  body : image;
  footer : image }.

(** [detect_document_regions]: [int(height * 0.25)] is [height / 4]
    and [int(height * 0.75)] is [3 * height / 4], both products being
    exact in floating point for a height below 2 ** 51. *)
Definition detect_document_regions (img : image) : regions :=
  let height := shape0 img in
  {| header := slice 0 (height / 4) img;
     body := slice (height / 4) (3 * height / 4) img;
     footer := slice_from (3 * height / 4) img |}.

End Image.

(** ** [rpa/invoice_processors.py] *)

Module Rpa.
Import Num Ocr Ai Image.

(** [self.stats] *)
Record stats : Type := {
  processed : nat;
  successful : nat;
  failed : nat;
  manual_review : nat }.

Definition initial_stats : stats :=
  {| processed := 0; successful := 0; failed := 0; manual_review := 0 |}.

(** The dictionary [process_invoice] returns: 'status' is 'success' or
    'error'; [error] stands for [str(e)]. *)
Inductive ProcessingResult : Type :=
| Success (invoice_data : InvoiceData) (ocr_conf : Q)
          (semantic_similarity : Q) (processing_time_seconds : Q)
          (requires_review : bool) (file_path : string)
| Error (error : exn) (file_path : string).

(** The processor: its three components, the conversion of a PDF to an
    image ([_prepare_image], which returns the path itself for an image
    file), and the time a call takes. *)
Record InvoiceProcessorRPA : Type := {
  preprocessor : cv2;
  ocr_engine : InvoiceOCREngine;
  ai_validator : AzureOpenAIValidator;
  _prepare_image : string -> result string;
  processing_time : string -> Q }.

(** What the [try] block computes before it builds the result. *)
Record processed_invoice : Type := {
  validated_invoice : InvoiceData;
  ocr_result_confidence : Q;
  similarity : Q }.

(** The orchestrator's gate: [if similarity < 0.6: ...]. *)
Definition similarity_gate (sim : Q) (i : InvoiceData) : InvoiceData :=
  rule (Qltb sim (6 # 10)) (NoteSimilarity sim) i.

(** Steps 1 to 6 of the [try] block. *)
Definition stages (self : InvoiceProcessorRPA) (file_path : string)
  : result processed_invoice :=
  (do image_path <- _prepare_image self file_path;
   do preprocessed_img <- preprocess_invoice (preprocessor self) image_path;
   do ocr_result <- extract_text (engine (ocr_engine self)) preprocessed_img;
   let extracted_fields :=
     (extract_invoice_fields (ocr_engine self)
        (ocr_text ocr_result) (word_data ocr_result)).1 in
   let fields_dict : gmap string string := value <$> extracted_fields in
   do validated <-
     (validate_and_structure_invoice (ai_validator self)
        (ocr_text ocr_result) fields_dict (confidence ocr_result)).1;
   do sim <-
     semantic_similarity_check (ai_validator self)
       (ocr_text ocr_result) validated;
   Ok {| validated_invoice := similarity_gate sim validated;
         ocr_result_confidence := confidence ocr_result;
         similarity := sim |})%result.

Definition count_success (review : bool) (st : stats) : stats :=
  {| processed := S (processed st);
     successful := if review then successful st else S (successful st);
     failed := failed st;
     manual_review :=
       if review then S (manual_review st) else manual_review st |}.

Definition count_failure (st : stats) : stats :=
  {| processed := S (processed st);
     successful := successful st;
     failed := S (failed st);
     manual_review := manual_review st |}.

(** [process_invoice]: the result and the statistics after the call. *)
Definition process_invoice (self : InvoiceProcessorRPA) (st : stats)
    (file_path : string) : ProcessingResult * stats :=
  match stages self file_path with
  | Ok p =>
      let inv := validated_invoice p in
      (Success inv (ocr_result_confidence p) (similarity p)
         (processing_time self file_path)
         (requires_manual_review inv) file_path,
       count_success (requires_manual_review inv) st)
  | Raise e => (Error e file_path, count_failure st)
  end.

(** Calls of [process_invoice] one after the other on the same
    processor. *)
Fixpoint process_each (self : InvoiceProcessorRPA) (st : stats)
    (files : list string) : list ProcessingResult * stats :=
  match files with
  | [] => ([], st)
  | f :: files' =>
      let '(r, st1) := process_invoice self st f in
      let '(rs, st2) := process_each self st1 files' in
      (r :: rs, st2)
  end.

(** What [get_stats] returns: the counters and the two rates, as
    numbers, before [f'{...:.1f}%'] formats them. *)
Record report : Type := {
  counters : stats;
  success_rate : Q;
  manual_review_rate : Q }.

Definition percent (part whole : nat) : Q :=
  (inject_Z (Z.of_nat part) / inject_Z (Z.of_nat whole) * 100)%Q.

Definition get_stats (st : stats) : report :=
  if (0 <? processed st)%nat then
    {| counters := st;
       success_rate := percent (successful st) (processed st);
       manual_review_rate := percent (manual_review st) (processed st) |}
  else
    {| counters := st; success_rate := 0; manual_review_rate := 0 |}.

End Rpa.

(** ** [main.py] *)

Module Main.
Import Ai Rpa.


End Main.

(** ** [integrations/email_monitor.py] *)

Module Email.
Import Text Ocr.

Definition invoice_keywords : list string :=
  ["fattura"; "invoice"; "ft_"; "inv_"].

Definition valid_extensions : list string :=
  [".pdf"; ".png"; ".jpg"; ".jpeg"; ".tiff"].

(** [l.endswith(ext)] *)
Definition ends_with (ext l : list ascii) : bool :=
  starts_with (rev ext) (rev l).

Definition _is_invoice_file (filename : string) : bool :=
  let filename_lower := lower_str filename in
  let has_keyword :=
    existsb (fun kw => substring_of (chars kw) filename_lower)
      invoice_keywords in
  let has_valid_ext :=
    existsb (fun ext => ends_with (chars ext) filename_lower)
      valid_extensions in
  has_keyword && has_valid_ext.

End Email.

(** ** Sample collaborators and documents *)

Module Samples.
Import Num Config Ocr Ai Image Rpa.

Definition row (txt : string) (conf : Z) : tess_row :=
  {| t_text := txt; t_conf := conf; t_left := 0; t_top := 0;
     t_width := 10; t_height := 10; t_block_num := 1; t_line_num := 1 |}.

(** A page: a non-text entry (confidence -1), a zero-confidence entry
    and three words. *)
Definition page : list tess_row :=
  [ row "" (-1); row "Fattura" 96; row "P.IVA" 90;
    row "12345678901" 0; row "Totale" 84 ].

Definition page_text : string :=
  "Fattura del 31/12/2024 P.IVA: 12345678901 Totale: 122,00".

Definition tess : tesseract :=
  {| image_to_data := fun _ => Ok page;
     image_to_string := fun _ => Ok page_text |}.

Definition ocr : InvoiceOCREngine := init [] [] [] (fun _ => None) tess.

Definition scan : image := [[255; 255]; [255; 0]]%Z.

(** An OpenCV whose [minAreaRect] reports the given angle. *)
Definition cv (angle : Q) : cv2 :=
  {| imread := fun _ => Some scan;
     before_deskew := fun img => Ok img;
     minAreaRect_angle := fun _ => Ok angle;
     warpAffine := fun img _ => Ok ([] :: img);
     after_deskew := fun img => Ok img |}.

(** A response of the collaborator: 100 + 22% = 122, with the given
    subtotal, notes and review flag. *)
Definition response (sub : Q) (notes : raw (list note)) (review : raw bool)
  : json_invoice :=
  {| j_invoice_number := Present "2024/001";
     j_invoice_date := Present "2024-12-31";
     j_supplier_name := Present "Fornitore";
     j_supplier_vat := Present "12345678901";
     j_supplier_address := Absent;
     j_customer_name := Present "Cliente";
     j_customer_vat := Present "10987654321";
     j_customer_address := Present None;
     j_subtotal := Present sub;
     j_vat_rate := Absent;
     j_vat_amount := Present 22%Q;
     j_total_amount := Present 122%Q;
     j_line_items := Absent;
     j_payment_terms := Absent;
     j_due_date := Absent;
     j_currency := Present "EUR";
     j_ocr_confidence := Absent;
     j_ai_validation_score := Absent;
     j_validation_notes := notes;
     j_requires_manual_review := review;
     j_confidence_score := Present (95 # 100) |}.

(** A consistent response. *)
Definition consistent : json_invoice :=
  response 100%Q Absent (Present false).

(** A response whose subtotal is not positive. *)
Definition negative_subtotal : json_invoice :=
  response (-1)%Q Absent (Present false).

(** A consistent response whose review flag is [null] and that carries
    a note of the collaborator. *)
Definition null_flag : json_invoice :=
  response 100%Q (Present [NoteText "verificare il fornitore"]) Malformed.

Definition validator (replies : nat -> reply) : AzureOpenAIValidator :=
  {| cfg := settings;
     complete := fun _ _ n => replies n;
     rate := fun _ _ => Ok (Some (9 # 10)) |}.

Definition processor (replies : nat -> reply) : InvoiceProcessorRPA :=
  {| preprocessor := cv (-1)%Q;
     ocr_engine := ocr;
     ai_validator := validator replies;
     _prepare_image := fun p => Ok p;
     processing_time := fun _ => 3%Q |}.


(** A record of 122000 euros, above both amount thresholds. *)
Definition large_invoice : InvoiceData :=
  {| invoice_number := "2024/002"; invoice_date := "2024-12-31";
     supplier_name := "Fornitore"; supplier_vat := "12345678901";
     supplier_address := None; customer_name := "Cliente";
     customer_vat := "10987654321"; customer_address := None;
     subtotal := 100000%Q; vat_rate := (22 # 100)%Q;
     vat_amount := 22000%Q; total_amount := 122000%Q;
     line_items := []; payment_terms := None; due_date := None;
     currency := "EUR"; ocr_confidence := 90%Q;
     ai_validation_score := (95 # 100)%Q; validation_notes := [];
     requires_manual_review := false |}.

(** A connection error on the first call, then a consistent response. *)
Definition flaky (n : nat) : reply :=
  match n with
  | 1%nat => CallFails (Exception "APIConnectionError" "Connection error.")
  | _ => Json consistent
  end.

End Samples.

(** ** Vocabulary of the properties *)

Module Spec.
Import Num Config Ocr Ai Image Rpa.

(** The entries the loop of [extract_text] keeps: those with a
    confidence above zero. *)
Definition kept (data : list tess_row) : list tess_row :=
  List.filter (fun r => (0 <? t_conf r)%Z) data.

(** The mean the specification describes: over the kept entries, and
    zero when there is none. *)
Definition mean_of_positive (data : list tess_row) : Q :=
  match kept data with
  | [] => 0%Q
  | _ :: _ =>
      (inject_Z (sumZ (map t_conf (kept data)))
       / inject_Z (Z.of_nat (length (kept data))))%Q
  end.


(** The counters add up. *)
Definition balanced (st : stats) : Prop :=
  processed st = (successful st + manual_review st + failed st)%nat.



(** The attempts a trace of the retry loop holds. *)
Definition attempts (tr : list event) : list nat :=
  omap (fun ev => match ev with Attempt n => Some n | Sleep _ => None end) tr.

Definition sleeps (tr : list event) : list Q :=
  omap (fun ev => match ev with Sleep w => Some w | Attempt _ => None end) tr.


(** "A response that fails validation is not discarded: the record is
    returned flagged, the error text appended to its notes": the
    attempt returns a record whose flag is set and whose notes hold the
    notes of the response and the error. *)
Definition keeps_document_and_notes (s : Settings) (c : Q) (d : json_invoice)
  : Prop :=
  forall e,
    model_validate (add_metadata c d) = inr e ->
    exists r,
      attempt s c (Json d) = Ok r
      /\ requires_manual_review r = true
      /\ In (NoteValidation e) (validation_notes r)
      /\ forall l n,
           j_validation_notes d = Present l -> In n l ->
           In n (validation_notes r).

(** The notes the business rules and the similarity gate write. *)
Definition rule_note (n : note) : bool :=
  match n with
  | NoteAutoApprove _ | NoteMaxAmount _ | NoteOcrConfidence _
  | NoteAiConfidence _ | NoteSimilarity _ => true
  | NoteText _ | NoteValidation _ => false
  end.

(** One check leaves the record as it is, or sets the flag and appends
    one note; it never clears the flag. *)
Definition check_monotone (check : InvoiceData -> InvoiceData) : Prop :=
  forall j,
    (check j = j
     \/ exists n, rule_note n = true
          /\ requires_manual_review (check j) = true
          /\ validation_notes (check j) = validation_notes j ++ [n])
    /\ (requires_manual_review j = true
        -> requires_manual_review (check j) = true).

(** A stage of [process_invoice] raises [e], the stages before it
    having returned. *)
Inductive stage_raises (self : InvoiceProcessorRPA) (file_path : string)
  : exn -> Prop :=
| raises_prepare e :
    _prepare_image self file_path = Raise e ->
    stage_raises self file_path e
| raises_preprocess image_path e :
    _prepare_image self file_path = Ok image_path ->
    preprocess_invoice (preprocessor self) image_path = Raise e ->
    stage_raises self file_path e
| raises_ocr image_path img e :
    _prepare_image self file_path = Ok image_path ->
    preprocess_invoice (preprocessor self) image_path = Ok img ->
    extract_text (engine (ocr_engine self)) img = Raise e ->
    stage_raises self file_path e
| raises_structuring image_path img ocr e :
    _prepare_image self file_path = Ok image_path ->
    preprocess_invoice (preprocessor self) image_path = Ok img ->
    extract_text (engine (ocr_engine self)) img = Ok ocr ->
    (validate_and_structure_invoice (ai_validator self) (ocr_text ocr)
       (value <$> (extract_invoice_fields (ocr_engine self)
                     (ocr_text ocr) (word_data ocr)).1)
       (confidence ocr)).1 = Raise e ->
    stage_raises self file_path e
| raises_similarity image_path img ocr validated e :
    _prepare_image self file_path = Ok image_path ->
    preprocess_invoice (preprocessor self) image_path = Ok img ->
    extract_text (engine (ocr_engine self)) img = Ok ocr ->
    (validate_and_structure_invoice (ai_validator self) (ocr_text ocr)
       (value <$> (extract_invoice_fields (ocr_engine self)
                     (ocr_text ocr) (word_data ocr)).1)
       (confidence ocr)).1 = Ok validated ->
    semantic_similarity_check (ai_validator self) (ocr_text ocr) validated
      = Raise e ->
    stage_raises self file_path e.

(** What post-processing does to the field stored under a key. *)
Definition post_field (self : InvoiceOCREngine) (k : string)
    (f : InvoiceField) : InvoiceField :=
  if String.eqb k "vat_number" then
    if (String.length (only_digits (value f)) =? 11)%nat
    then set_value f (only_digits (value f)) else f
  else if String.eqb k "date" then
    match _normalize_date (value f) with
    | Some out => set_value f out
    | None => f
    end
  else if String.eqb k "amount" then
    match float_2f self (decimal_point (value f)) with
    | Some v => set_value f v
    | None => f
    end
  else f.

(** A word whose text contains the given text, case-insensitively. *)
Definition contains_text (txt : string) (w : word) : bool :=
  substring_of (lower_str txt) (lower_str (w_text w)).

(** The number of occurrences of a character. *)
Definition occurrences (c : ascii) (l : list ascii) : nat :=
  length (List.filter (Ascii.eqb c) l).

(** The field an error of pydantic is about (its [loc]). *)
Definition field_name (e : field_error) : string :=
  match e with
  | Missing f | WrongType f | Constraint f | ValueErr f _ _ => f
  end.

(** An error on one of the two keys the [except] block overwrites. *)
Definition on_flag_fields (e : field_error) : bool :=
  String.eqb (field_name e) "validation_notes"
  || String.eqb (field_name e) "requires_manual_review".

(** The errors on the other keys. *)
Definition other_errors (e : list field_error) : list field_error :=
  List.filter (fun x => negb (on_flag_fields x)) e.

(** The pixel of an image at row [r] and column [c]. *)
Definition pixel (img : image) (r c : Z) : option Z :=
  if ((r <? 0) || (c <? 0))%Z then None
  else img !! Z.to_nat r ≫= fun row => row !! Z.to_nat c.

(** An array of [w] columns. *)
Definition columns (w : Z) (img : image) : Prop :=
  List.Forall (fun row => Z.of_nat (length row) = w) img.


End Spec.

(** * Properties *)

Import Text Re Dates Num Config Ocr Ai Image Rpa Main Email Spec.

(** ** Comparisons *)

Lemma Qltb_true (a b : Q) : Qltb a b = true <-> (a < b)%Q.
Proof.
  unfold Qltb. rewrite negb_true_iff.
  destruct (Qle_bool b a) eqn:E.
  - apply Qle_bool_iff in E. split; [discriminate | intros H; lra].
  - split; [intros _ | reflexivity].
    apply Qnot_le_lt. intros H. apply Qle_bool_iff in H. congruence.
Qed.

Lemma Qltb_false (a b : Q) : Qltb a b = false <-> (b <= a)%Q.
Proof.
  destruct (Qltb a b) eqn:E.
  - apply Qltb_true in E. split; [discriminate | intros H; lra].
  - split; [intros _ | reflexivity].
    apply Qnot_lt_le. intros H. apply Qltb_true in H. congruence.
Qed.


(** ** Text extraction: the aggregate confidence *)

Lemma extract_text_loop (data : list tess_row) :
  forall ws cs,
    fold_left extract_text_step data (ws, cs)
    = (ws ++ map word_of_row (kept data), cs ++ map t_conf (kept data)).
Proof.
  induction data as [|r data IH]; intros ws cs; simpl.
  - by rewrite !app_nil_r.
  - unfold extract_text_step at 2. simpl.
    destruct (0 <? t_conf r)%Z; simpl.
    + rewrite IH. by rewrite <- !app_assoc.
    + apply IH.
Qed.

Lemma length_map_kept (data : list tess_row) :
  length (map t_conf (kept data)) = length (kept data).
Proof. apply length_map. Qed.

(** C8. The confidence [extract_text] returns is the arithmetic mean of
    the confidences of exactly the entries whose confidence is above
    zero, which are also exactly the entries of [word_data], in order;
    it is 0 when there is no such entry. *)
Theorem extract_text_confidence (t : tesseract) (img : image)
    (data : list tess_row) (txt : string) :
  image_to_data t img = Ok data ->
  image_to_string t img = Ok txt ->
  exists r,
    extract_text t img = Ok r
    /\ word_data r = map word_of_row (kept data)
    /\ Forall (fun w => (0 < w_confidence w)%Z) (word_data r)
    /\ confidence r = mean_of_positive data
    /\ (kept data = [] -> confidence r = 0%Q).
Proof.
  intros Hd Hs. unfold extract_text. rewrite Hd, Hs. simpl.
  rewrite extract_text_loop. simpl.
  eexists. split; [reflexivity|]. simpl.
  split; [reflexivity|]. split.
  - apply List.Forall_forall. intros w Hw. apply in_map_iff in Hw.
    destruct Hw as (r & <- & Hr). apply filter_In in Hr.
    destruct Hr as [_ Hr]. simpl. lia.
  - unfold mean_of_positive, np_mean.
    rewrite length_map_kept.
    destruct (kept data) eqn:E; simpl; split; try reflexivity; discriminate.
Qed.

Lemma extract_text_confidence_witness :
  exists r,
    extract_text Samples.tess Samples.scan = Ok r
    /\ word_data r = map word_of_row (kept Samples.page)
    /\ Forall (fun w => (0 < w_confidence w)%Z) (word_data r)
    /\ confidence r = mean_of_positive Samples.page
    /\ (kept Samples.page = [] -> confidence r = 0%Q).
Proof.
  apply (extract_text_confidence Samples.tess Samples.scan
           Samples.page Samples.page_text); reflexivity.
Defined.

(** ** Deskew: the corrected angle *)





(** ** The review flag and the notes *)

Lemma rule_flag (c : bool) (n : note) (i : InvoiceData) :
  requires_manual_review (rule c n i) = requires_manual_review i || c.
Proof. destruct c; simpl; [by rewrite orb_true_r | by rewrite orb_false_r]. Qed.

Lemma rule_notes (c : bool) (n : note) (i : InvoiceData) :
  validation_notes (rule c n i)
  = validation_notes i ++ (if c then [n] else []).
Proof. destruct c; simpl; [done | by rewrite app_nil_r]. Qed.

Lemma rule_amounts (c : bool) (n : note) (i : InvoiceData) :
  subtotal (rule c n i) = subtotal i
  /\ vat_rate (rule c n i) = vat_rate i
  /\ vat_amount (rule c n i) = vat_amount i
  /\ total_amount (rule c n i) = total_amount i
  /\ ocr_confidence (rule c n i) = ocr_confidence i
  /\ ai_validation_score (rule c n i) = ai_validation_score i.
Proof. by destruct c. Qed.

Lemma rule_monotone (i0 : InvoiceData -> note)
    (cond : InvoiceData -> bool) :
  (forall j, rule_note (i0 j) = true) ->
  check_monotone (fun j => rule (cond j) (i0 j) j).
Proof.
  intros Hn j. split.
  - destruct (cond j) eqn:E; simpl; [right | by left].
    exists (i0 j). by rewrite Hn.
  - rewrite rule_flag. intros ->. reflexivity.
Qed.

Lemma business_rules_flag (s : Settings) (i : InvoiceData) :
  requires_manual_review (_apply_business_rules s i)
  = requires_manual_review i
    || Qltb (AUTO_APPROVE_THRESHOLD s) (total_amount i)
    || Qltb (MAX_INVOICE_AMOUNT s) (total_amount i)
    || Qltb (ocr_confidence i) (OCR_CONFIDENCE_THRESHOLD s)
    || Qltb (ai_validation_score i) (7 # 10).
Proof.
  unfold _apply_business_rules, rule_ai_confidence, rule_ocr_confidence,
    rule_max_amount, rule_auto_approve.
  repeat (rewrite rule_flag
          || rewrite (proj1 (proj2 (proj2 (proj2 (rule_amounts _ _ _)))))
          || rewrite (proj1 (proj2 (proj2 (proj2 (proj2 (rule_amounts _ _ _))))))
          || rewrite (proj2 (proj2 (proj2 (proj2 (proj2 (rule_amounts _ _ _))))))).
  reflexivity.
Qed.

Lemma business_rules_notes (s : Settings) (i : InvoiceData) :
  validation_notes (_apply_business_rules s i)
  = validation_notes i
    ++ (if Qltb (AUTO_APPROVE_THRESHOLD s) (total_amount i)
        then [NoteAutoApprove (total_amount i)] else [])
    ++ (if Qltb (MAX_INVOICE_AMOUNT s) (total_amount i)
        then [NoteMaxAmount (total_amount i)] else [])
    ++ (if Qltb (ocr_confidence i) (OCR_CONFIDENCE_THRESHOLD s)
        then [NoteOcrConfidence (ocr_confidence i)] else [])
    ++ (if Qltb (ai_validation_score i) (7 # 10)
        then [NoteAiConfidence (ai_validation_score i)] else []).
Proof.
  unfold _apply_business_rules, rule_ai_confidence, rule_ocr_confidence,
    rule_max_amount, rule_auto_approve.
  repeat (rewrite rule_notes
          || rewrite (proj1 (proj2 (proj2 (proj2 (rule_amounts _ _ _)))))
          || rewrite (proj1 (proj2 (proj2 (proj2 (proj2 (rule_amounts _ _ _))))))
          || rewrite (proj2 (proj2 (proj2 (proj2 (proj2 (rule_amounts _ _ _))))))).
  by rewrite <- !app_assoc.
Qed.


(** C5. Each business rule and the similarity gate of the orchestrator
    either leaves the record as it is or sets the flag and appends one
    note; [_apply_business_rules] is the four rules in turn; after the
    rules and the gate a flag that was set is still set and the notes
    that were there are a prefix of the notes. *)
Theorem review_flag_monotone (s : Settings) (sim : Q) (i : InvoiceData) :
  Forall check_monotone
    [ rule_auto_approve s; rule_max_amount s; rule_ocr_confidence s;
      rule_ai_confidence; similarity_gate sim ]
  /\ _apply_business_rules s i
     = rule_ai_confidence (rule_ocr_confidence s (rule_max_amount s
         (rule_auto_approve s i)))
  /\ (requires_manual_review i = true
      -> requires_manual_review (_apply_business_rules s i) = true
         /\ requires_manual_review
              (similarity_gate sim (_apply_business_rules s i)) = true)
  /\ exists added,
       validation_notes (similarity_gate sim (_apply_business_rules s i))
       = validation_notes i ++ added
       /\ (length added <= 5)%nat
       /\ forallb rule_note added = true.
Proof.
  split.
  { repeat (apply List.Forall_cons || apply List.Forall_nil).
    - apply (rule_monotone (fun j => NoteAutoApprove (total_amount j))
               (fun j => Qltb (AUTO_APPROVE_THRESHOLD s) (total_amount j))).
      reflexivity.
    - apply (rule_monotone (fun j => NoteMaxAmount (total_amount j))
               (fun j => Qltb (MAX_INVOICE_AMOUNT s) (total_amount j))).
      reflexivity.
    - apply (rule_monotone (fun j => NoteOcrConfidence (ocr_confidence j))
               (fun j => Qltb (ocr_confidence j) (OCR_CONFIDENCE_THRESHOLD s))).
      reflexivity.
    - apply (rule_monotone (fun j => NoteAiConfidence (ai_validation_score j))
               (fun j => Qltb (ai_validation_score j) (7 # 10))).
      reflexivity.
    - apply (rule_monotone (fun _ => NoteSimilarity sim)
               (fun _ => Qltb sim (6 # 10))).
      reflexivity. }
  split; [reflexivity|]. split.
  - intros H. unfold similarity_gate. rewrite rule_flag, business_rules_flag, H.
    split; reflexivity.
  - unfold similarity_gate. rewrite rule_notes, business_rules_notes.
    eexists. split.
    + rewrite <- app_assoc. reflexivity.
    + repeat match goal with |- context [if ?c then _ else _] => destruct c end;
        simpl; split; (lia || reflexivity).
Qed.

(** ** The orchestrator: failures and counters *)

(** C6. Whatever stage of [process_invoice] raises (conversion of the
    PDF, preprocessing, OCR, AI structuring after its retries, the
    similarity check), the call returns: its result is the error result
    that holds the exception and the path it was given, and the failure
    is counted. *)
Theorem stage_failure_is_error_result (self : InvoiceProcessorRPA)
    (st : stats) (file_path : string) (e : exn) :
  stage_raises self file_path e ->
  process_invoice self st file_path = (Error e file_path, count_failure st).
Proof.
  intros H. unfold process_invoice, stages.
  inversion H as [e' H1 | ip e' H1 H2 | ip img e' H1 H2 H3
                 | ip img ocr e' H1 H2 H3 H4
                 | ip img ocr v e' H1 H2 H3 H4 H5]; subst e'.
  - rewrite H1. reflexivity.
  - rewrite H1. simpl. rewrite H2. reflexivity.
  - rewrite H1. simpl. rewrite H2. simpl. rewrite H3. reflexivity.
  - rewrite H1. simpl. rewrite H2. simpl. rewrite H3. simpl.
    rewrite H4. reflexivity.
  - rewrite H1. simpl. rewrite H2. simpl. rewrite H3. simpl.
    rewrite H4. simpl. rewrite H5. reflexivity.
Qed.

Lemma stage_failure_is_error_result_witness :
  process_invoice
    (Samples.processor (fun _ => Json Samples.negative_subtotal))
    initial_stats "fattura.png"
  = (Error (RetryError (ValidationError [Constraint "subtotal"]))
       "fattura.png",
     count_failure initial_stats).
Proof.
  apply (stage_failure_is_error_result
           (Samples.processor (fun _ => Json Samples.negative_subtotal))
           initial_stats "fattura.png"
           (RetryError (ValidationError [Constraint "subtotal"]))).
  eapply raises_structuring; reflexivity.
Defined.

(** Conversely an error result always comes from a stage that raised,
    and a call that is not an error result is a success for the same
    path. *)
Lemma error_result_is_stage_failure (self : InvoiceProcessorRPA)
    (st : stats) (file_path : string) :
  match (process_invoice self st file_path).1 with
  | Error e p => p = file_path /\ stage_raises self file_path e
  | Success inv _ _ _ review p =>
      p = file_path /\ review = requires_manual_review inv
  end.
Proof.
  unfold process_invoice.
  destruct (stages self file_path) as [p|e] eqn:E; simpl; [done|].
  split; [done|]. unfold stages in E.
  destruct (_prepare_image self file_path) as [ip|e1] eqn:H1; simpl in E;
    [|inversion E; subst; by apply raises_prepare].
  destruct (preprocess_invoice (preprocessor self) ip) as [img|e2] eqn:H2;
    simpl in E; [|inversion E; subst; by eapply raises_preprocess].
  destruct (extract_text (engine (ocr_engine self)) img) as [ocr|e3] eqn:H3;
    simpl in E; [|inversion E; subst; by eapply raises_ocr].
  match type of E with
  | rbind ?m _ = _ => destruct m as [v|e4] eqn:H4
  end; simpl in E; [|inversion E; subst; by eapply raises_structuring].
  destruct (semantic_similarity_check (ai_validator self) (ocr_text ocr) v)
    as [sim|e5] eqn:H5; simpl in E; [discriminate|].
  inversion E; subst. by eapply raises_similarity.
Qed.

(** C10. After a call of [process_invoice] the counters add up again:
    the call adds one to [processed] and one to exactly one of
    [successful] (success, no review), [manual_review] (success, review
    required) and [failed] (an exception). *)
Theorem stats_balanced (self : InvoiceProcessorRPA) (st : stats)
    (file_path : string) :
  balanced st ->
  balanced (process_invoice self st file_path).2
  /\ processed (process_invoice self st file_path).2 = S (processed st)
  /\ match (process_invoice self st file_path).1 with
     | Success _ _ _ _ false _ =>
         successful (process_invoice self st file_path).2 = S (successful st)
         /\ manual_review (process_invoice self st file_path).2
            = manual_review st
         /\ failed (process_invoice self st file_path).2 = failed st
     | Success _ _ _ _ true _ =>
         successful (process_invoice self st file_path).2 = successful st
         /\ manual_review (process_invoice self st file_path).2
            = S (manual_review st)
         /\ failed (process_invoice self st file_path).2 = failed st
     | Error _ _ =>
         successful (process_invoice self st file_path).2 = successful st
         /\ manual_review (process_invoice self st file_path).2
            = manual_review st
         /\ failed (process_invoice self st file_path).2 = S (failed st)
     end.
Proof.
  unfold balanced, process_invoice. intros H.
  destruct (stages self file_path) as [p|e]; simpl.
  - destruct (requires_manual_review (validated_invoice p)); simpl;
      repeat split; lia.
  - repeat split; lia.
Qed.

Lemma stats_balanced_witness :
  balanced (process_invoice (Samples.processor Samples.flaky)
              initial_stats "fattura.png").2
  /\ processed (process_invoice (Samples.processor Samples.flaky)
                  initial_stats "fattura.png").2 = 1%nat.
Proof.
  pose proof (stats_balanced (Samples.processor Samples.flaky)
                initial_stats "fattura.png") as H.
  destruct H as (H1 & H2 & _); [reflexivity|].
  split; [exact H1 | exact H2].
Defined.

(** One call keeps the counters balanced and counts one document. *)
Lemma process_invoice_counts (self : InvoiceProcessorRPA) (st : stats)
    (file_path : string) :
  balanced st ->
  balanced (process_invoice self st file_path).2
  /\ processed (process_invoice self st file_path).2 = S (processed st).
Proof.
  unfold balanced, process_invoice. intros H.
  destruct (stages self file_path) as [p|e]; simpl; [|split; lia].
  destruct (requires_manual_review (validated_invoice p)); simpl; split; lia.
Qed.

(** The counters after any number of calls on a fresh processor. *)
Lemma process_each_balanced (self : InvoiceProcessorRPA)
    (files : list string) :
  forall st,
    balanced st ->
    balanced (process_each self st files).2
    /\ processed (process_each self st files).2
       = (processed st + length files)%nat
    /\ length (process_each self st files).1 = length files.
Proof.
  induction files as [|f files IH]; intros st Hst; simpl.
  - repeat split; [done | lia].
  - destruct (process_invoice self st f) as [r st1] eqn:E1.
    destruct (process_each self st1 files) as [rs st2] eqn:E2.
    pose proof (process_invoice_counts self st f Hst) as (Hb & Hp).
    rewrite E1 in Hb, Hp. simpl in Hb, Hp.
    destruct (IH st1 Hb) as (Hb2 & Hp2 & Hl2).
    rewrite E2 in Hb2, Hp2, Hl2. simpl in *.
    repeat split; [done | lia | lia].
Qed.

(** ** The schema: what a validated record satisfies *)





(** The fields of a model are the values that passed. *)
Lemma build_fields (c : checks) (i : InvoiceData) :
  build c = Some i ->
  valid (c_subtotal c) = Some (subtotal i)
  /\ valid (c_vat_rate c) = Some (vat_rate i)
  /\ valid (c_vat_amount c) = Some (vat_amount i)
  /\ valid (c_total_amount c) = Some (total_amount i)
  /\ valid (c_ocr_confidence c) = Some (ocr_confidence i)
  /\ valid (c_ai_validation_score c) = Some (ai_validation_score i)
  /\ valid (c_validation_notes c) = Some (validation_notes i)
  /\ valid (c_requires_manual_review c) = Some (requires_manual_review i).
Proof.
  unfold build. intros H.
  repeat match type of H with
         | mbind _ ?m = Some _ =>
             destruct m eqn:?; simpl in H; [|discriminate]
         end.
  inversion H; subst; simpl. repeat split; reflexivity.
Qed.

Lemma model_validate_build (d : json_invoice) (i : InvoiceData) :
  model_validate d = inl i <-> build (check_fields d) = Some i.
Proof.
  unfold model_validate. destruct (build (check_fields d)); split;
    intros H; inversion H; reflexivity.
Qed.


(** The flag and the notes of a model are those of the dictionary. *)
Lemma model_validate_flag (d : json_invoice) (i : InvoiceData) (b : bool) :
  model_validate d = inl i ->
  j_requires_manual_review d = Present b ->
  requires_manual_review i = b.
Proof.
  intros H Hb. apply model_validate_build in H. apply build_fields in H.
  destruct H as (_ & _ & _ & _ & _ & _ & _ & H). simpl in H.
  rewrite Hb in H. simpl in H. congruence.
Qed.

Lemma model_validate_notes (d : json_invoice) (i : InvoiceData)
    (l : list note) :
  model_validate d = inl i ->
  j_validation_notes d = Present l ->
  validation_notes i = l.
Proof.
  intros H Hb. apply model_validate_build in H. apply build_fields in H.
  destruct H as (_ & _ & _ & _ & _ & _ & H & _). simpl in H.
  rewrite Hb in H. simpl in H. congruence.
Qed.

(** ** One attempt and the retry loop *)

Lemma validate_or_flag_ok (d : json_invoice) (i : InvoiceData) :
  validate_or_flag d = Ok i ->
  model_validate d = inl i
  \/ exists e, model_validate d = inr e
       /\ model_validate (flag_dict e d) = inl i.
Proof.
  unfold validate_or_flag.
  destruct (model_validate d) as [m|e] eqn:E1.
  - intros [= <-]. by left.
  - destruct (model_validate (flag_dict e d)) as [m|e'] eqn:E2;
      [|discriminate].
    intros [= <-]. right. eauto.
Qed.

Lemma attempt_ok (s : Settings) (c : Q) (r : reply) (inv : InvoiceData) :
  attempt s c r = Ok inv ->
  exists d i, r = Json d
    /\ validate_or_flag (add_metadata c d) = Ok i
    /\ inv = _apply_business_rules s i.
Proof.
  destruct r as [e|e|d]; simpl; try discriminate.
  destruct (validate_or_flag (add_metadata c d)) as [i|e] eqn:E; simpl;
    [|discriminate].
  intros [= <-]. eauto.
Qed.


(** The shape of a run of the retry loop: attempts [n], [n+1], ... up
    to the first that returns or to the last allowed; a sleep between
    two attempts; every attempt but the last raised. *)
Lemma retrying_trace {A : Type} (wait : nat -> Q) (f : nat -> result A)
    (left : nat) :
  forall n,
  exists k,
    (k <= left)%nat
    /\ attempts (retrying wait f n left).2 = seq n (S k)
    /\ sleeps (retrying wait f n left).2 = map wait (seq n k)
    /\ (forall m, (n <= m < n + k)%nat -> exists e, f m = Raise e)
    /\ match f (n + k)%nat with
       | Ok a => (retrying wait f n left).1 = Ok a
       | Raise e =>
           k = left /\ (retrying wait f n left).1 = Raise (RetryError e)
       end.
Proof.
  induction left as [|left IH]; intros n; simpl.
  - exists 0%nat. rewrite Nat.add_0_r.
    destruct (f n) as [a|e] eqn:E; simpl;
      (split; [lia|]); (split; [reflexivity|]); (split; [reflexivity|]);
      (split; [intros m Hm; lia|]); done.
  - destruct (f n) as [a|e] eqn:E; simpl.
    + exists 0%nat. rewrite Nat.add_0_r, E. simpl.
      split; [lia|]. split; [reflexivity|]. split; [reflexivity|].
      split; [intros m Hm; lia | reflexivity].
    + destruct (IH (S n)) as (k & Hk & Ha & Hs & Hr & Hf).
      destruct (retrying wait f (S n) left) as [r tr] eqn:Er. simpl in *.
      exists (S k). split; [lia|]. split; [by rewrite Ha|].
      split; [by rewrite Hs|]. split.
      * intros m Hm. destruct (decide (m = n)) as [->|Hne]; [eauto|].
        apply Hr. lia.
      * replace (n + S k)%nat with (S (n + k))%nat by lia.
        destruct (f (S (n + k))); [exact Hf|].
        destruct Hf as [-> ->]. done.
Qed.



(** ** The structuring step *)





(** C3, as stated, fails on both counts: a response whose only fault is
    a [null] review flag comes back flagged but with its own note
    replaced by the error text; a response with a negative subtotal
    fails the second validation too and the attempt raises. *)
Lemma fallback_replaces_notes_or_raises :
  ~ keeps_document_and_notes settings 90%Q Samples.null_flag
  /\ ~ keeps_document_and_notes settings 90%Q Samples.negative_subtotal
  /\ attempt settings 90%Q (Json Samples.negative_subtotal)
     = Raise (ValidationError [Constraint "subtotal"])
  /\ exists r,
       attempt settings 90%Q (Json Samples.null_flag) = Ok r
       /\ validation_notes r
          = [NoteValidation [WrongType "requires_manual_review"]].
Proof.
  split; [|split; [|split; [reflexivity|eexists; split; reflexivity]]].
  - intros H.
    destruct (H [WrongType "requires_manual_review"]) as (r & Hr & _ & _ & Hn);
      [reflexivity|].
    vm_compute in Hr. injection Hr as <-.
    specialize (Hn [NoteText "verificare il fornitore"]
                   (NoteText "verificare il fornitore")).
    destruct Hn as [Hn|[]]; [reflexivity | by left | discriminate Hn].
  - intros H.
    destruct (H [Constraint "subtotal"]) as (r & Hr & _); [reflexivity|].
    vm_compute in Hr. discriminate Hr.
Qed.

(** C3, amended. When the first validation of a response fails, the
    dictionary gets the review flag and, in place of its notes, the one
    error text, and is validated again by the same schema; a record the
    attempt then returns is flagged and its notes are the error text
    followed by the notes of the business rules. *)
Theorem fallback_flags_record (s : Settings) (c : Q) (d : json_invoice)
    (e : list field_error) (r : InvoiceData) :
  model_validate (add_metadata c d) = inr e ->
  attempt s c (Json d) = Ok r ->
  requires_manual_review r = true
  /\ exists rules,
       validation_notes r = NoteValidation e :: rules
       /\ forallb rule_note rules = true.
Proof.
  intros He H. apply attempt_ok in H as (d' & i & [= <-] & Hv & ->).
  apply validate_or_flag_ok in Hv as [Hv | (e' & He' & Hv)]; [congruence|].
  assert (e' = e) as -> by congruence.
  pose proof (model_validate_flag _ _ true Hv eq_refl) as Hflag.
  pose proof (model_validate_notes _ _ [NoteValidation e] Hv eq_refl) as Hnotes.
  rewrite business_rules_flag, business_rules_notes, Hflag, Hnotes.
  split; [reflexivity|]. simpl. eexists. split; [reflexivity|].
  repeat match goal with |- context [if ?b then _ else _] => destruct b end;
    reflexivity.
Qed.

Lemma fallback_flags_record_witness :
  exists r,
    attempt settings 90%Q (Json Samples.null_flag) = Ok r
    /\ requires_manual_review r = true
    /\ exists rules,
         validation_notes r
         = NoteValidation [WrongType "requires_manual_review"] :: rules
         /\ forallb rule_note rules = true.
Proof.
  eexists. split; [reflexivity|].
  apply (fallback_flags_record settings 90%Q Samples.null_flag
           [WrongType "requires_manual_review"]); reflexivity.
Defined.

(** ** Text *)

Lemma chars_text (l : list ascii) : chars (text l) = l.
Proof. apply list_ascii_of_string_of_list_ascii. Qed.




(** ** Dates *)



Lemma normalize_date_loop_some (s : string) (fmts : list (list directive))
    (out : string) :
  normalize_date_loop s fmts = Some out
  <-> exists i fmt dt,
        fmts !! i = Some fmt
        /\ strptime s fmt = Some dt
        /\ out = strftime_iso dt
        /\ forall j fmt', (j < i)%nat -> fmts !! j = Some fmt' ->
             strptime s fmt' = None.
Proof.
  revert out. induction fmts as [|fmt fmts IH]; intros out; simpl.
  - split; [discriminate|]. intros (i & f & dt & H & _). by destruct i.
  - destruct (strptime s fmt) as [dt|] eqn:E.
    + split.
      * intros [= <-]. exists 0%nat, fmt, dt. repeat split; try done.
        intros j f' Hj. lia.
      * intros (i & f & dt' & Hi & Hp & -> & Hbefore).
        destruct i as [|i].
        -- simpl in Hi. injection Hi as <-. congruence.
        -- specialize (Hbefore 0%nat fmt (Nat.lt_0_succ i) eq_refl).
           congruence.
    + rewrite IH. split.
      * intros (i & f & dt & Hi & Hp & -> & Hbefore).
        exists (S i), f, dt. repeat split; try done.
        intros [|j] f' Hj Hf'; simpl in Hf'.
        -- injection Hf' as <-. exact E.
        -- apply (Hbefore j); [lia | done].
      * intros (i & f & dt & Hi & Hp & -> & Hbefore).
        destruct i as [|i]; simpl in Hi.
        -- injection Hi as <-. congruence.
        -- exists i, f, dt. repeat split; try done.
           intros j f' Hj Hf'. apply (Hbefore (S j)); [lia | done].
Qed.


Lemma strftime_iso_nonempty (dt : date) : String.eqb (strftime_iso dt) "" = false.
Proof. reflexivity. Qed.

(** ** Post-processing touches one key at a time *)

Lemma post_vat_other (fields : gmap string InvoiceField) (k : string) :
  k <> "vat_number" -> (post_vat fields).1 !! k = fields !! k.
Proof.
  intros Hk. unfold post_vat.
  destruct (fields !! "vat_number") as [f|]; [|reflexivity].
  destruct (String.length (only_digits (value f)) =? 11)%nat; simpl;
    [|reflexivity].
  by rewrite lookup_insert_ne.
Qed.

Lemma post_date_other (fields : gmap string InvoiceField) (k : string) :
  k <> "date" -> post_date fields !! k = fields !! k.
Proof.
  intros Hk. unfold post_date.
  destruct (fields !! "date") as [f|]; [|reflexivity].
  destruct (_normalize_date (value f)) as [out|]; [|reflexivity].
  destruct (String.eqb out ""); [reflexivity|].
  by rewrite lookup_insert_ne.
Qed.

Lemma post_amount_other (fmt : string -> option string)
    (fields : gmap string InvoiceField) (k : string) :
  k <> "amount" -> (post_amount fmt fields).1 !! k = fields !! k.
Proof.
  intros Hk. unfold post_amount.
  destruct (fields !! "amount") as [f|]; [|reflexivity].
  destruct (fmt (decimal_point (value f))); simpl; [|reflexivity].
  by rewrite lookup_insert_ne.
Qed.

Lemma post_process_fields_eq (self : InvoiceOCREngine)
    (fields : gmap string InvoiceField) :
  _post_process_fields self fields
  = ((post_amount (float_2f self) (post_date (post_vat fields).1)).1,
     (post_vat fields).2
     ++ (post_amount (float_2f self) (post_date (post_vat fields).1)).2).
Proof.
  unfold _post_process_fields.
  destruct (post_vat fields) as [f1 w1]. simpl.
  destruct (post_amount (float_2f self) (post_date f1)) as [f3 w3].
  reflexivity.
Qed.


(** ** Regular expressions: what a match went through *)





(** ** The VAT number *)















(** * Further properties of the field extractor *)

Lemma sumZ_bounds (l : list Z) (lo hi : Z) :
  List.Forall (fun z => (lo <= z <= hi)%Z) l ->
  (lo * Z.of_nat (length l) <= sumZ l <= hi * Z.of_nat (length l))%Z.
Proof.
  induction 1 as [|z l Hz _ IH]; simpl length; simpl sumZ; [lia|].
  rewrite Nat2Z.inj_succ. lia.
Qed.

(** The mean of a non-empty list lies between its bounds. *)
Lemma np_mean_bounds (l : list Z) (lo hi : Z) :
  l <> [] ->
  List.Forall (fun z => (lo <= z <= hi)%Z) l ->
  (inject_Z lo <= np_mean l /\ np_mean l <= inject_Z hi)%Q.
Proof.
  intros Hne Hall. pose proof (sumZ_bounds l lo hi Hall) as [H1 H2].
  assert (Hn : (0 < inject_Z (Z.of_nat (length l)))%Q).
  { replace 0%Q with (inject_Z 0) by reflexivity. rewrite <- Zlt_Qlt.
    destruct l; [done | simpl; lia]. }
  unfold np_mean. split.
  - apply Qle_shift_div_l; [exact Hn|].
    rewrite <- inject_Z_mult, <- Zle_Qle. exact H1.
  - apply Qle_shift_div_r; [exact Hn|].
    rewrite <- inject_Z_mult, <- Zle_Qle. exact H2.
Qed.

Lemma calculate_field_confidence_range (v : string) (words : list word) :
  List.Forall (fun w => (0 <= w_confidence w <= 100)%Z) words ->
  (0 <= _calculate_field_confidence v words
   /\ _calculate_field_confidence v words <= 100)%Q.
Proof.
  intros Hall. unfold _calculate_field_confidence.
  set (m := List.filter _ words).
  assert (Hm : List.Forall (fun z => (0 <= z <= 100)%Z) (map w_confidence m)).
  { apply List.Forall_forall. intros z Hz. apply in_map_iff in Hz.
    destruct Hz as (w & <- & Hw). apply filter_In in Hw as [Hw _].
    rewrite List.Forall_forall in Hall. by apply Hall. }
  destruct m as [|w m'] eqn:E; [split; discriminate|].
  apply (np_mean_bounds _ 0 100); [discriminate | exact Hm].
Qed.

(** What [collect_fields] stores under a key was extracted for it. *)
Lemma collect_fields_lookup (pats : list (string * list pattern))
    (txt : string) (words : list word) (k : string) (f : InvoiceField) :
  collect_fields pats txt words !! k = Some f ->
  exists ps, In (k, ps) pats /\ _extract_field txt ps words k = Some f.
Proof.
  unfold collect_fields.
  assert (H : forall acc : gmap string InvoiceField,
             fold_left
               (fun fields '(ftype, ps) =>
                  match _extract_field txt ps words ftype with
                  | Some f => <[ftype := f]> fields
                  | None => fields
                  end) pats acc !! k = Some f ->
             acc !! k = Some f
             \/ exists ps, In (k, ps) pats
                  /\ _extract_field txt ps words k = Some f).
  { induction pats as [|[ft ps] pats IH]; intros acc Hacc; simpl in Hacc;
      [by left|].
    apply IH in Hacc as [Hacc | (ps' & Hin & He)].
    - destruct (_extract_field txt ps words ft) as [g|] eqn:E; [|by left].
      destruct (decide (ft = k)) as [->|Hne].
      + rewrite lookup_insert_eq in Hacc. injection Hacc as ->.
        right. exists ps. split; [by left | exact E].
      + rewrite lookup_insert_ne in Hacc by done. by left.
    - right. exists ps'. split; [by right | exact He]. }
  intros Hf. apply H in Hf as [Hf|Hf]; [|exact Hf].
  by rewrite lookup_empty in Hf.
Qed.

Lemma extract_field_shape (txt : string) (pats : list pattern)
    (words : list word) (ftype : string) (f : InvoiceField) :
  _extract_field txt pats words ftype = Some f ->
  exists v, In v (omap (fun p => p txt) pats)
    /\ f = {| value := strip v;
              field_confidence := _calculate_field_confidence v words;
              field_bbox := _find_bbox_for_text v words;
              field_type := ftype |}.
Proof.
  induction pats as [|p pats IH]; simpl; [discriminate|].
  destruct (p txt) as [v|] eqn:E.
  - intros [= <-]. exists v. split; [by left | reflexivity].
  - exact IH.
Qed.

(** Post-processing, key by key. *)
Lemma post_process_lookup (self : InvoiceOCREngine)
    (fields : gmap string InvoiceField) (k : string) :
  (_post_process_fields self fields).1 !! k
  = post_field self k <$> fields !! k.
Proof.
  rewrite post_process_fields_eq. cbn [fst]. unfold post_field.
  destruct (String.eqb k "vat_number") eqn:Ev.
  { apply String.eqb_eq in Ev as ->.
    rewrite post_amount_other, post_date_other by discriminate.
    unfold post_vat. destruct (fields !! "vat_number") as [f|] eqn:E;
      cbn [fst]; [|by rewrite E].
    simpl. destruct (String.length (only_digits (value f)) =? 11)%nat;
      cbn [fst]; [by rewrite lookup_insert_eq | exact E]. }
  destruct (String.eqb k "date") eqn:Ed.
  { apply String.eqb_eq in Ed as ->.
    rewrite post_amount_other by discriminate.
    unfold post_date. rewrite post_vat_other by discriminate.
    destruct (fields !! "date") as [f|] eqn:E;
      [|by rewrite post_vat_other, E].
    simpl. destruct (_normalize_date (value f)) as [out|] eqn:En.
    - apply normalize_date_loop_some in En as (i & fmt & dt & _ & _ & -> & _).
      rewrite strftime_iso_nonempty. by rewrite lookup_insert_eq.
    - by rewrite post_vat_other, E. }
  destruct (String.eqb k "amount") eqn:Ea.
  { apply String.eqb_eq in Ea as ->.
    unfold post_amount. rewrite post_date_other, post_vat_other by discriminate.
    destruct (fields !! "amount") as [f|] eqn:E; cbn [fst].
    - simpl. destruct (float_2f self (decimal_point (value f))); cbn [fst].
      + by rewrite lookup_insert_eq.
      + by rewrite post_date_other, post_vat_other, E.
    - by rewrite post_date_other, post_vat_other, E. }
  apply String.eqb_neq in Ev. apply String.eqb_neq in Ed.
  apply String.eqb_neq in Ea.
  rewrite post_amount_other, post_date_other, post_vat_other by done.
  by destruct (fields !! k).
Qed.

Lemma post_field_metadata (self : InvoiceOCREngine) (k : string)
    (f : InvoiceField) :
  field_confidence (post_field self k f) = field_confidence f
  /\ field_bbox (post_field self k f) = field_bbox f
  /\ field_type (post_field self k f) = field_type f.
Proof.
  unfold post_field.
  repeat match goal with
         | |- context [if ?b then _ else _] => destruct b
         | |- context [match ?o with Some _ => _ | None => _ end] => destruct o
         end; done.
Qed.

(** X1. Every field [extract_invoice_fields] returns has a confidence
    between 0 and 100 when the confidences of the words are. *)
Theorem extracted_field_confidence_range (self : InvoiceOCREngine)
    (txt : string) (words : list word) (k : string) (f : InvoiceField) :
  List.Forall (fun w => (0 <= w_confidence w <= 100)%Z) words ->
  (extract_invoice_fields self txt words).1 !! k = Some f ->
  (0 <= field_confidence f /\ field_confidence f <= 100)%Q.
Proof.
  intros Hw Hf. unfold extract_invoice_fields in Hf.
  rewrite post_process_lookup in Hf.
  destruct (collect_fields (patterns self) txt words !! k) as [f0|] eqn:E;
    [|discriminate].
  simpl in Hf. injection Hf as <-.
  destruct (post_field_metadata self k f0) as (-> & _ & _).
  apply collect_fields_lookup in E as (ps & _ & E).
  apply extract_field_shape in E as (v & _ & ->). simpl.
  by apply calculate_field_confidence_range.
Qed.

Lemma extracted_field_confidence_range_witness :
  exists f,
    (extract_invoice_fields Samples.ocr Samples.page_text
       (map word_of_row (kept Samples.page))).1 !! "vat_number" = Some f
    /\ (0 <= field_confidence f /\ field_confidence f <= 100)%Q.
Proof.
  eexists. split; [reflexivity|].
  apply (extracted_field_confidence_range Samples.ocr Samples.page_text
           (map word_of_row (kept Samples.page)) "vat_number").
  - repeat constructor; simpl; lia.
  - reflexivity.
Defined.

(** X2. When Tesseract reports no confidence above 100, the aggregate
    confidence of [extract_text] is between 0 and 100, every kept word
    has a confidence in 1..100, and the aggregate is at least 1 as soon
    as one word is kept. *)
Theorem ocr_confidence_range (t : tesseract) (img : image)
    (data : list tess_row) (txt : string) :
  image_to_data t img = Ok data ->
  image_to_string t img = Ok txt ->
  List.Forall (fun r => (t_conf r <= 100)%Z) data ->
  exists r,
    extract_text t img = Ok r
    /\ (0 <= confidence r /\ confidence r <= 100)%Q
    /\ List.Forall (fun w => (1 <= w_confidence w <= 100)%Z) (word_data r)
    /\ (word_data r <> [] -> (1 <= confidence r)%Q).
Proof.
  intros Hd Hs Hall. unfold extract_text. rewrite Hd, Hs. simpl.
  rewrite extract_text_loop. simpl. eexists. split; [reflexivity|]. simpl.
  assert (Hk : List.Forall (fun z => (1 <= z <= 100)%Z) (map t_conf (kept data))).
  { apply List.Forall_forall. intros z Hz. apply in_map_iff in Hz.
    destruct Hz as (r & <- & Hr). apply filter_In in Hr as [Hr Hpos].
    rewrite List.Forall_forall in Hall. specialize (Hall r Hr). lia. }
  split; [|split].
  - destruct (map t_conf (kept data)) as [|z l] eqn:E; [split; discriminate|].
    destruct (np_mean_bounds (z :: l) 1 100) as [H1 H2];
      [discriminate | exact Hk |].
    split; [|exact H2].
    apply Qle_trans with (inject_Z 1); [discriminate | exact H1].
  - apply List.Forall_forall. intros w Hw. apply in_map_iff in Hw.
    destruct Hw as (r & <- & Hr). simpl.
    rewrite List.Forall_forall in Hk. apply Hk. by apply in_map.
  - intros Hne. destruct (kept data) as [|r l] eqn:E; [done|].
    simpl in *. apply (np_mean_bounds _ 1 100); [discriminate | exact Hk].
Qed.

Lemma ocr_confidence_range_witness :
  exists r,
    extract_text Samples.tess Samples.scan = Ok r
    /\ (0 <= confidence r /\ confidence r <= 100)%Q
    /\ List.Forall (fun w => (1 <= w_confidence w <= 100)%Z) (word_data r)
    /\ (word_data r <> [] -> (1 <= confidence r)%Q).
Proof.
  apply (ocr_confidence_range Samples.tess Samples.scan Samples.page
           Samples.page_text); try reflexivity.
  repeat constructor; simpl; lia.
Defined.

(** X3. [_find_bbox_for_text] returns the box of the first word whose
    text contains the given text, upper and lower case alike, and the
    zero box when there is no such word; for the empty text that is the
    first word, whatever it is. *)
Theorem find_bbox_first_word (txt : string) (words : list word) :
  ((exists pre w post,
      words = pre ++ w :: post
      /\ contains_text txt w = true
      /\ List.Forall (fun u => contains_text txt u = false) pre
      /\ _find_bbox_for_text txt words = w_bbox w)
   \/ (List.Forall (fun u => contains_text txt u = false) words
       /\ _find_bbox_for_text txt words = (0, 0, 0, 0)%Z))
  /\ (forall w rest, _find_bbox_for_text "" (w :: rest) = w_bbox w).
Proof.
  split.
  - induction words as [|w words IH]; simpl.
    + right. split; [constructor | reflexivity].
    + fold (contains_text txt w).
      destruct (contains_text txt w) eqn:E.
      * left. exists [], w, words. repeat split; [done | constructor].
      * destruct IH as [(pre & u & post & -> & Hu & Hpre & Hr) | [Hall Hr]].
        -- left. exists (w :: pre), u, post. repeat split; try done.
           by constructor.
        -- right. split; [by constructor | exact Hr].
  - intros w rest. simpl. by destruct (lower_str (w_text w)).
Qed.

(** X4. [_extract_field] takes the first pattern that matches: the
    result is [None] exactly when no pattern matches, and otherwise the
    field built from the value of the first matching pattern, stripped
    of surrounding blanks, with the requested field type. *)
Theorem extract_field_first_pattern (txt : string) (pats : list pattern)
    (words : list word) (ftype : string) :
  (_extract_field txt pats words ftype = None
   <-> forall p, In p pats -> p txt = None)
  /\ (forall f,
        _extract_field txt pats words ftype = Some f
        <-> exists i p v,
              pats !! i = Some p
              /\ p txt = Some v
              /\ (forall j q, (j < i)%nat -> pats !! j = Some q ->
                    q txt = None)
              /\ f = {| value := strip v;
                        field_confidence :=
                          _calculate_field_confidence v words;
                        field_bbox := _find_bbox_for_text v words;
                        field_type := ftype |}).
Proof.
  induction pats as [|p pats [IHn IHs]]; simpl.
  - split; [split; [intros _ q [] | reflexivity]|].
    intros f. split; [discriminate|]. intros (i & q & v & H & _). by destruct i.
  - destruct (p txt) as [v|] eqn:E.
    + split.
      * split; [discriminate|]. intros H.
        specialize (H p (or_introl eq_refl)). congruence.
      * intros f. split.
        -- intros [= <-]. exists 0%nat, p, v. repeat split; try done.
           intros j q Hj. lia.
        -- intros (i & q & v' & Hi & Hq & Hb & ->). destruct i as [|i].
           ++ simpl in Hi. injection Hi as <-. congruence.
           ++ specialize (Hb 0%nat p (Nat.lt_0_succ i) eq_refl). congruence.
    + split.
      * rewrite IHn. split.
        -- intros H q [<-|Hq]; [exact E | by apply H].
        -- intros H q Hq. apply H. by right.
      * intros f. rewrite IHs. split.
        -- intros (i & q & v & Hi & Hq & Hb & ->).
           exists (S i), q, v. repeat split; try done.
           intros [|j] q' Hj Hq'; simpl in Hq'.
           ++ injection Hq' as <-. exact E.
           ++ apply (Hb j); [lia | done].
        -- intros (i & q & v & Hi & Hq & Hb & ->).
           destruct i as [|i]; simpl in Hi.
           ++ injection Hi as <-. congruence.
           ++ exists i, q, v. repeat split; try done.
              intros j q' Hj Hq'. apply (Hb (S j)); [lia | done].
Qed.

(** X5. The keys of the dictionary [extract_invoice_fields] returns are
    among the five field types of [self.patterns], and the field stored
    under a key has that key as its [field_type]. *)
Theorem extracted_fields_keys
    (invoice_number amount email : list pattern)
    (fmt : string -> option string) (t : tesseract)
    (txt : string) (words : list word) (k : string) (f : InvoiceField) :
  (extract_invoice_fields (init invoice_number amount email fmt t)
     txt words).1 !! k = Some f ->
  In k ["invoice_number"; "date"; "vat_number"; "amount"; "email"]
  /\ field_type f = k.
Proof.
  unfold extract_invoice_fields. rewrite post_process_lookup.
  destruct (collect_fields _ txt words !! k) as [f0|] eqn:E; [|discriminate].
  simpl. intros [= <-].
  destruct (post_field_metadata (init invoice_number amount email fmt t) k f0)
    as (_ & _ & ->).
  apply collect_fields_lookup in E as (ps & Hin & E).
  apply extract_field_shape in E as (v & _ & ->). simpl. split; [|done].
  unfold init in Hin. cbn [patterns] in Hin.
  apply (in_map fst) in Hin. exact Hin.
Qed.

Lemma extracted_fields_keys_witness :
  exists f,
    (extract_invoice_fields Samples.ocr Samples.page_text []).1 !! "date"
    = Some f
    /\ In "date" ["invoice_number"; "date"; "vat_number"; "amount"; "email"]
    /\ field_type f = "date".
Proof.
  eexists. split; [reflexivity|].
  apply (extracted_fields_keys [] [] [] (fun _ => None) Samples.tess
           Samples.page_text [] "date").
  reflexivity.
Defined.

(** X6. Post-processing neither adds nor removes a field: a key is in
    the result exactly when it was in the dictionary; it changes at
    most the value of a field, never its confidence, box or type, and
    leaves every field other than 'vat_number', 'date' and 'amount' as
    it was. *)
Theorem post_process_preserves_fields (self : InvoiceOCREngine)
    (fields : gmap string InvoiceField) (k : string) :
  ((_post_process_fields self fields).1 !! k = None <-> fields !! k = None)
  /\ (forall f0,
        fields !! k = Some f0 ->
        exists f,
          (_post_process_fields self fields).1 !! k = Some f
          /\ field_confidence f = field_confidence f0
          /\ field_bbox f = field_bbox f0
          /\ field_type f = field_type f0
          /\ (k <> "vat_number" -> k <> "date" -> k <> "amount" -> f = f0)).
Proof.
  rewrite post_process_lookup. split.
  - destruct (fields !! k); simpl; split; intros H; done.
  - intros f0 ->. simpl. eexists. split; [reflexivity|].
    destruct (post_field_metadata self k f0) as (-> & -> & ->).
    repeat split. intros Hv Hd Ha. unfold post_field.
    apply String.eqb_neq in Hv, Hd, Ha. by rewrite Hv, Hd, Ha.
Qed.

Lemma occurrences_decimal_point_digits (l : list ascii) :
  List.filter is_digit
    (map (fun c => if Ascii.eqb c ","%char then "."%char else c)
       (List.filter (fun c => negb (Ascii.eqb c "."%char)) l))
  = List.filter is_digit l.
Proof.
  induction l as [|c l IH]; simpl; [reflexivity|].
  destruct (Ascii.eqb c ".") eqn:Ed; simpl.
  - apply Ascii.eqb_eq in Ed as ->. simpl. exact IH.
  - destruct (Ascii.eqb c ",") eqn:Ec; simpl.
    + apply Ascii.eqb_eq in Ec as ->. simpl. exact IH.
    + by rewrite IH.
Qed.

(** X7. The amount: [replace('.', '').replace(',', '.')] keeps the
    digits in their order, leaves no comma, and has one point for each
    comma of the value; the field gets the formatted number when
    [float] accepts that text, and otherwise keeps its raw value while
    a warning is logged. *)
Theorem amount_normalization (self : InvoiceOCREngine)
    (fields : gmap string InvoiceField) (f : InvoiceField) :
  fields !! "amount" = Some f ->
  List.filter is_digit (chars (decimal_point (value f)))
  = List.filter is_digit (chars (value f))
  /\ occurrences ","%char (chars (decimal_point (value f))) = 0%nat
  /\ occurrences "."%char (chars (decimal_point (value f)))
     = occurrences ","%char (chars (value f))
  /\ (forall v,
        float_2f self (decimal_point (value f)) = Some v ->
        (_post_process_fields self fields).1 !! "amount"
        = Some (set_value f v))
  /\ (float_2f self (decimal_point (value f)) = None ->
      (_post_process_fields self fields).1 !! "amount" = Some f
      /\ In (Warning "Importo non valido" (decimal_point (value f)))
            (_post_process_fields self fields).2).
Proof.
  intros Hf.
  split; [unfold decimal_point; rewrite chars_text;
          apply occurrences_decimal_point_digits|].
  split; [|split; [|split]].
  - unfold decimal_point. rewrite chars_text. unfold occurrences. induction (chars (value f)) as [|c l IH];
      [reflexivity|].
    cbn [List.filter map negb].
    destruct (Ascii.eqb c ".") eqn:Ed; cbn [List.filter map negb];
      [exact IH|].
    destruct (Ascii.eqb c ",") eqn:Ec; cbn [List.filter map negb].
    + change (Ascii.eqb "," ".") with false. exact IH.
    + rewrite Ascii.eqb_sym, Ec. exact IH.
  - unfold decimal_point. rewrite chars_text. unfold occurrences.
    induction (chars (value f)) as [|c l IH]; [reflexivity|].
    cbn [List.filter map negb].
    destruct (Ascii.eqb c ".") eqn:Ed; cbn [List.filter map negb].
    + apply Ascii.eqb_eq in Ed as ->.
      change (Ascii.eqb "," ".") with false. exact IH.
    + destruct (Ascii.eqb c ",") eqn:Ec; cbn [List.filter map negb].
      * apply Ascii.eqb_eq in Ec as ->.
        change (Ascii.eqb "." ".") with true.
        change (Ascii.eqb "," ",") with true.
        cbn [length]. by rewrite IH.
      * rewrite (Ascii.eqb_sym "." c), Ed, (Ascii.eqb_sym "," c), Ec.
        exact IH.
  - intros v Hv. rewrite post_process_lookup, Hf. simpl.
    unfold post_field. cbn [String.eqb Ascii.eqb Bool.eqb]. by rewrite Hv.
  - intros Hn. split.
    + rewrite post_process_lookup, Hf. simpl.
      unfold post_field. cbn [String.eqb Ascii.eqb Bool.eqb]. by rewrite Hn.
    + rewrite post_process_fields_eq. cbn [snd]. apply in_or_app. right.
      unfold post_amount.
      rewrite post_date_other, post_vat_other, Hf by discriminate.
      rewrite Hn. by left.
Qed.

Lemma amount_normalization_witness :
  List.filter is_digit (chars (decimal_point "1.234,56"))
  = List.filter is_digit (chars "1.234,56")
  /\ occurrences ","%char (chars (decimal_point "1.234,56")) = 0%nat.
Proof.
  pose proof (amount_normalization Samples.ocr
                {["amount" := {| value := "1.234,56"; field_confidence := 0;
                                 field_bbox := (0, 0, 0, 0)%Z;
                                 field_type := "amount" |}]}
                {| value := "1.234,56"; field_confidence := 0;
                   field_bbox := (0, 0, 0, 0)%Z; field_type := "amount" |}
                (lookup_singleton_eq _ _)) as (H1 & H2 & _).
  split; [exact H1 | exact H2].
Defined.

(** ** The schema: ranges, patterns and the errors of the fallback *)


















(** X10. The business rules leave a record without the review flag
    exactly when it came without the flag, its total exceeds neither the
    auto-approval threshold nor the maximum amount, its OCR confidence
    is at least the threshold and its AI score at least 0.7; the rules
    then return the record as it was. *)
Theorem auto_approval_criterion (s : Settings) (i : InvoiceData) :
  (requires_manual_review (_apply_business_rules s i) = false
   <-> requires_manual_review i = false
       /\ (total_amount i <= AUTO_APPROVE_THRESHOLD s)%Q
       /\ (total_amount i <= MAX_INVOICE_AMOUNT s)%Q
       /\ (OCR_CONFIDENCE_THRESHOLD s <= ocr_confidence i)%Q
       /\ (7 # 10 <= ai_validation_score i)%Q)
  /\ (requires_manual_review (_apply_business_rules s i) = false
      -> _apply_business_rules s i = i).
Proof.
  rewrite business_rules_flag. split.
  - rewrite !orb_false_iff, !Qltb_false. tauto.
  - rewrite !orb_false_iff. intros ((((_ & H1) & H2) & H3) & H4).
    unfold _apply_business_rules, rule_ai_confidence, rule_ocr_confidence,
      rule_max_amount, rule_auto_approve.
    rewrite H1. cbn [rule]. rewrite H2. cbn [rule]. rewrite H3. cbn [rule].
    rewrite H4. reflexivity.
Qed.

Lemma error_of_field {A : Type} (name : string) (default : option A)
    (ok : A -> bool) (r : raw A) (err : field_error) :
  In err (error_of (field name default ok r)) -> field_name err = name.
Proof.
  destruct r as [| |a]; simpl.
  - destruct default; simpl; [done|]. by intros [<-|[]].
  - by intros [<-|[]].
  - destruct (ok a); simpl; [done|]. by intros [<-|[]].
Qed.

Lemma error_of_vat (name : string) (ok : Q -> bool) (r : raw Q)
    (s t : option Q) (err : field_error) :
  In err (error_of (after (field "vat_amount" None ok r) (validate_vat s t)))
  -> field_name err = "vat_amount".
Proof.
  destruct (field "vat_amount" None ok r) as [a|e] eqn:E; simpl.
  - unfold validate_vat. destruct s, t; simpl; try done.
    destruct (Qltb _ _); simpl; [|done]. by intros [<-|[]].
  - intros [<-|[]]. apply (error_of_field "vat_amount" None ok r).
    rewrite E. by left.
Qed.

Lemma error_of_total (ok : Q -> bool) (r : raw Q)
    (s t : option Q) (err : field_error) :
  In err (error_of (after (field "total_amount" None ok r)
                      (validate_total s t)))
  -> field_name err = "total_amount".
Proof.
  destruct (field "total_amount" None ok r) as [a|e] eqn:E; simpl.
  - unfold validate_total. destruct s, t; simpl; try done.
    destruct (Qltb _ _); simpl; [|done]. by intros [<-|[]].
  - intros [<-|[]]. apply (error_of_field "total_amount" None ok r).
    rewrite E. by left.
Qed.

Lemma filter_keep {A : Type} (p : A -> bool) (l : list A) :
  (forall x, In x l -> p x = true) -> List.filter p l = l.
Proof.
  induction l as [|a l IH]; simpl; intros H; [done|].
  rewrite (H a) by (by left). f_equal. apply IH. intros x Hx. apply H.
  by right.
Qed.

Lemma filter_drop {A : Type} (p : A -> bool) (l : list A) :
  (forall x, In x l -> p x = false) -> List.filter p l = [].
Proof.
  induction l as [|a l IH]; simpl; intros H; [done|].
  rewrite (H a) by (by left). apply IH. intros x Hx. apply H. by right.
Qed.

Lemma keep_named (name : string) (l : list field_error) :
  on_flag_fields (Missing name) = false ->
  (forall err, In err l -> field_name err = name) ->
  other_errors l = l.
Proof.
  intros Hn H. apply filter_keep. intros x Hx.
  unfold on_flag_fields in *. simpl in Hn. by rewrite (H x Hx), Hn.
Qed.

Lemma drop_named (name : string) (l : list field_error) :
  on_flag_fields (Missing name) = true ->
  (forall err, In err l -> field_name err = name) ->
  other_errors l = [].
Proof.
  intros Hn H. apply filter_drop. intros x Hx.
  unfold on_flag_fields in *. simpl in Hn. by rewrite (H x Hx), Hn.
Qed.

Lemma other_errors_app (l1 l2 : list field_error) :
  other_errors (l1 ++ l2) = other_errors l1 ++ other_errors l2.
Proof. apply List.filter_app. Qed.

(** The second validation reports the errors of the first on the keys
    the [except] block does not overwrite. *)
Lemma errors_flag_dict (e : list field_error) (d : json_invoice) :
  errors (check_fields (flag_dict e d))
  = other_errors (errors (check_fields d)).
Proof.
  unfold errors. rewrite !other_errors_app.
  cbn [check_fields flag_dict c_invoice_number c_invoice_date c_supplier_name
       c_supplier_vat c_supplier_address c_customer_name c_customer_vat
       c_customer_address c_subtotal c_vat_rate c_vat_amount c_total_amount
       c_line_items c_payment_terms c_due_date c_currency c_ocr_confidence
       c_ai_validation_score c_validation_notes c_requires_manual_review
       j_invoice_number j_invoice_date j_supplier_name
       j_supplier_vat j_supplier_address j_customer_name j_customer_vat
       j_customer_address j_subtotal j_vat_rate j_vat_amount j_total_amount
       j_line_items j_payment_terms j_due_date j_currency j_ocr_confidence
       j_ai_validation_score j_validation_notes j_requires_manual_review].
  repeat match goal with
         | |- context [other_errors (error_of (field ?n ?df ?ok ?r))] =>
             first
               [ rewrite (keep_named n (error_of (field n df ok r)) eq_refl
                            (error_of_field n df ok r))
               | rewrite (drop_named n (error_of (field n df ok r)) eq_refl
                            (error_of_field n df ok r)) ]
         end.
  rewrite (keep_named "vat_amount" _ eq_refl
             (error_of_vat "vat_amount" _ _ _ _)).
  rewrite (keep_named "total_amount" _ eq_refl (error_of_total _ _ _ _)).
  cbn [field any error_of]. by rewrite !app_nil_r.
Qed.

Lemma build_errors (c : checks) :
  (exists i, build c = Some i) <-> errors c = [].
Proof.
  destruct c as [x1 x2 x3 x4 x5 x6 x7 x8 x9 x10 x11 x12 x13 x14 x15 x16 x17
                   x18 x19 x20].
  unfold build, errors.
  cbn [c_invoice_number c_invoice_date c_supplier_name
       c_supplier_vat c_supplier_address c_customer_name c_customer_vat
       c_customer_address c_subtotal c_vat_rate c_vat_amount c_total_amount
       c_line_items c_payment_terms c_due_date c_currency c_ocr_confidence
       c_ai_validation_score c_validation_notes c_requires_manual_review].
  destruct x1; [|split; [intros [? ?]|]; discriminate].
  destruct x2; [|split; [intros [? ?]|]; discriminate].
  destruct x3; [|split; [intros [? ?]|]; discriminate].
  destruct x4; [|split; [intros [? ?]|]; discriminate].
  destruct x5; [|split; [intros [? ?]|]; discriminate].
  destruct x6; [|split; [intros [? ?]|]; discriminate].
  destruct x7; [|split; [intros [? ?]|]; discriminate].
  destruct x8; [|split; [intros [? ?]|]; discriminate].
  destruct x9; [|split; [intros [? ?]|]; discriminate].
  destruct x10; [|split; [intros [? ?]|]; discriminate].
  destruct x11; [|split; [intros [? ?]|]; discriminate].
  destruct x12; [|split; [intros [? ?]|]; discriminate].
  destruct x13; [|split; [intros [? ?]|]; discriminate].
  destruct x14; [|split; [intros [? ?]|]; discriminate].
  destruct x15; [|split; [intros [? ?]|]; discriminate].
  destruct x16; [|split; [intros [? ?]|]; discriminate].
  destruct x17; [|split; [intros [? ?]|]; discriminate].
  destruct x18; [|split; [intros [? ?]|]; discriminate].
  destruct x19; [|split; [intros [? ?]|]; discriminate].
  destruct x20; [|split; [intros [? ?]|]; discriminate].
  split; [done|]. intros _. eexists. reflexivity.
Qed.

(** X11. When the first validation fails with the errors [e], the
    [except] block gives a record exactly when every error of [e] is on
    'validation_notes' or 'requires_manual_review', the two keys it
    overwrites; otherwise the second validation raises a
    [ValidationError] with the errors of [e] on the other keys, in the
    same order. *)
Theorem fallback_outcome (d : json_invoice) (e : list field_error) :
  model_validate d = inr e ->
  e <> []
  /\ match validate_or_flag d with
     | Ok r => other_errors e = [] /\ model_validate (flag_dict e d) = inl r
     | Raise x => other_errors e <> [] /\ x = ValidationError (other_errors e)
     end.
Proof.
  intros H. unfold validate_or_flag. rewrite H.
  unfold model_validate in H.
  destruct (build (check_fields d)) as [m|] eqn:B; [discriminate|].
  injection H as <-. split.
  - intros E. apply build_errors in E as [i E]. congruence.
  - unfold model_validate. rewrite <- (errors_flag_dict (errors (check_fields d)) d).
    destruct (build (check_fields (flag_dict _ d))) as [m|] eqn:B'.
    + split; [|done]. apply build_errors. by exists m.
    + split; [|done]. intros E. apply build_errors in E as [i E]. congruence.
Qed.

Lemma fallback_outcome_witness :
  match validate_or_flag (add_metadata 90 Samples.negative_subtotal) with
  | Ok r => True
  | Raise x => x = ValidationError [Constraint "subtotal"]
  end.
Proof.
  pose proof (fallback_outcome (add_metadata 90 Samples.negative_subtotal)
                [Constraint "subtotal"] eq_refl) as [_ H].
  destruct (validate_or_flag _); [exact I | exact (proj2 H)].
Defined.

(** X12. What the decorated call gives: the record of the first of the
    three attempts that does not raise, and when all three raise a
    [RetryError] that holds the exception of the third. *)
Theorem retry_outcome (self : AzureOpenAIValidator) (txt : string)
    (fields : gmap string string) (conf : Q) :
  match (validate_and_structure_invoice self txt fields conf).1 with
  | Ok r =>
      exists n,
        (1 <= n <= 3)%nat
        /\ attempt (cfg self) conf (complete self txt fields n) = Ok r
        /\ forall m, (1 <= m < n)%nat ->
             exists e,
               attempt (cfg self) conf (complete self txt fields m) = Raise e
  | Raise x =>
      exists e,
        x = RetryError e
        /\ attempt (cfg self) conf (complete self txt fields 3) = Raise e
        /\ forall m, (1 <= m <= 3)%nat ->
             exists e',
               attempt (cfg self) conf (complete self txt fields m) = Raise e'
  end.
Proof.
  unfold validate_and_structure_invoice, retry.
  set (f := fun n => attempt (cfg self) conf (complete self txt fields n)).
  destruct (retrying_trace (wait_exponential 1 2 10) f 2 1)
    as (k & Hk & _ & _ & Hbefore & Hlast).
  change (attempt (cfg self) conf (complete self txt fields 3)) with (f 3%nat).
  destruct (f (1 + k)%nat) as [a|e] eqn:E.
  - rewrite Hlast. exists (1 + k)%nat. split; [lia|]. split; [done|].
    intros m Hm. apply Hbefore. lia.
  - destruct Hlast as [-> ->]. exists e. split; [done|]. split; [done|].
    intros m Hm. destruct (decide (m = 3)) as [->|Hne].
    + by exists e.
    + apply Hbefore. lia.
Qed.

(** X13. The similarity score, for a reply [float] reads as a finite
    number or rejects: the number itself when it lies between 0 and 1,
    0 below, 1 above, and 0.5 when [float] raises; the score is always
    between 0 and 1, and the function raises only when the call of the
    client does. *)
Theorem similarity_score_range (self : AzureOpenAIValidator) (txt : string)
    (validated_data : InvoiceData) :
  match rate self txt validated_data with
  | Ok content =>
      exists q,
        semantic_similarity_check self txt validated_data = Ok q
        /\ (0 <= q <= 1)%Q
        /\ match content with
           | Some x =>
               ((0 <= x <= 1)%Q -> q == x)%Q
               /\ ((x < 0)%Q -> q == 0)%Q
               /\ ((1 < x)%Q -> q == 1)%Q
           | None => q = 1 # 2
           end
  | Raise e => semantic_similarity_check self txt validated_data = Raise e
  end.
Proof.
  unfold semantic_similarity_check.
  destruct (rate self txt validated_data) as [[x|]|e]; simpl; [| |done].
  - eexists. split; [reflexivity|].
    destruct (Q.max_spec x 0) as [[H1 Ha]|[H1 Ha]];
      destruct (Q.min_spec (Qmax x 0) 1) as [[H2 Hq]|[H2 Hq]];
      remember (Qmin (Qmax x 0) 1) as q; remember (Qmax x 0) as a;
      repeat split; intros; lra.
  - eexists. split; [reflexivity|]. split; [|done]. split; done.
Qed.

(** ** Crops and regions of an image *)

Lemma slice_inside {A : Type} (a b : Z) (l : list A) :
  (0 <= a <= b)%Z -> (b <= Z.of_nat (length l))%Z ->
  slice a b l = take (Z.to_nat (b - a)) (drop (Z.to_nat a) l).
Proof.
  intros H1 H2. unfold slice, adjust_index.
  destruct (Z.ltb_spec a 0); [lia|]. destruct (Z.ltb_spec b 0); [lia|].
  by rewrite !Z.min_l by lia.
Qed.

Lemma lookup_map {A B : Type} (f : A -> B) (l : list A) (i : nat) :
  map f l !! i = f <$> l !! i.
Proof.
  revert i. induction l as [|a l IH]; intros [|i]; simpl; done.
Qed.

(** X14. [_remove_borders], for a bounding rectangle inside the image:
    the result is the window of the image that starts ten pixels above
    and to the left of the rectangle, or at the border, and extends ten
    pixels beyond it, or to the border; every pixel of the result is
    the pixel of the image at that offset, the rectangle lies inside
    the window and the window inside the image. *)
Theorem remove_borders_crop (findContours : image -> result (list contour))
    (img : image) (c : contour) (cs : list contour) (x y w h W : Z) :
  findContours img = Ok (c :: cs) ->
  boundingRect (largest c cs) = (x, y, w, h) ->
  columns W img ->
  (0 <= x)%Z -> (0 <= y)%Z -> (0 < w)%Z -> (0 < h)%Z ->
  (x + w <= W)%Z -> (y + h <= shape0 img)%Z ->
  let y' := Z.max 0 (y - 10) in
  let x' := Z.max 0 (x - 10) in
  let h' := Z.min (shape0 img - y') (h + 20) in
  let w' := Z.min (W - x') (w + 20) in
  exists out,
    _remove_borders findContours img = Ok out
    /\ shape0 out = h'
    /\ columns w' out
    /\ (forall r k, (0 <= r < h')%Z -> (0 <= k < w')%Z ->
          pixel out r k = pixel img (y' + r) (x' + k))
    /\ (y' <= y /\ y + h <= y' + h' /\ x' <= x /\ x + w <= x' + w')%Z
    /\ (y' + h' <= shape0 img /\ x' + w' <= W)%Z.
Proof.
  intros Hc Hr Hcols Hx Hy Hw Hh HxW HyH y' x' h' w'.
  assert (shape1 img = W) as HW.
  { destruct img as [|row img]; [unfold shape0 in HyH; simpl in HyH; lia|].
    by inversion Hcols. }
  unfold _remove_borders. rewrite Hc. cbn [rbind]. rewrite Hr, HW.
  change (2 * 10)%Z with 20%Z. fold y' x'. fold h' w'.
  eexists. split; [reflexivity|].
  unfold crop. unfold shape0 in *.
  rewrite (slice_inside y' (y' + h') img) by lia.
  replace (y' + h' - y')%Z with h' by lia.
  assert (Forall (fun row =>
                    slice x' (x' + w') row
                    = take (Z.to_nat w') (drop (Z.to_nat x') row)
                    /\ Z.of_nat (length row) = W) img) as Hrow.
  { eapply Forall_impl; [exact Hcols|]. intros row Hl. cbn beta in Hl.
    split; [|done]. rewrite slice_inside by lia.
    by replace (x' + w' - x')%Z with w' by lia. }
  split; [|split; [|split; [|lia]]].
  - rewrite length_map, length_take, length_drop. lia.
  - unfold columns. apply List.Forall_map.
    apply Forall_take, Forall_drop.
    eapply Forall_impl; [exact Hrow|]. intros row [-> Hl].
    rewrite length_take, length_drop. lia.
  - intros r k Hr' Hk. unfold pixel, image.
    destruct (Z.ltb_spec r 0); [lia|]. destruct (Z.ltb_spec k 0); [lia|].
    destruct (Z.ltb_spec (y' + r) 0); [lia|].
    destruct (Z.ltb_spec (x' + k) 0); [lia|]. cbn [orb].
    rewrite lookup_map, lookup_take_lt, lookup_drop by lia.
    replace (Z.to_nat (y' + r)) with (Z.to_nat y' + Z.to_nat r)%nat by lia.
    destruct (lookup (M:=list (list Z)) (Z.to_nat y' + Z.to_nat r)%nat img)
      as [row|] eqn:E;
      cbn [fmap option_fmap option_map mbind option_bind]; [|done].
    destruct (Forall_lookup_1 _ _ _ _ Hrow E) as [-> Hl].
    rewrite lookup_take_lt, lookup_drop by lia.
    f_equal. lia.
Qed.

Lemma remove_borders_crop_witness :
  exists out,
    _remove_borders
      (fun _ => Ok [ {| contourArea := 1; boundingRect := (1, 0, 1, 2)%Z |} ])
      Samples.scan = Ok out
    /\ shape0 out = 2%Z
    /\ pixel out 1 1 = pixel Samples.scan 1 1.
Proof.
  destruct (remove_borders_crop
              (fun _ => Ok [ {| contourArea := 1;
                                boundingRect := (1, 0, 1, 2)%Z |} ])
              Samples.scan
              {| contourArea := 1; boundingRect := (1, 0, 1, 2)%Z |} []
              1 0 1 2 2)
    as (out & H1 & H2 & _ & H3 & _);
    [ reflexivity | reflexivity
    | repeat (apply List.Forall_cons || apply List.Forall_nil); reflexivity
    | lia | lia | lia | lia | lia | vm_compute; discriminate |].
  exists out. split; [exact H1|]. split; [exact H2|].
  apply (H3 1%Z 1%Z); vm_compute; split; congruence.
Defined.

(** X15. The three regions of [detect_document_regions] are the rows
    of the image in order, each row in exactly one region: the header
    has the first quarter of the rows (rounded down), the body the rows
    up to three quarters, the footer the rest. *)
Theorem document_regions_partition (img : image) :
  header (detect_document_regions img) ++ body (detect_document_regions img)
    ++ footer (detect_document_regions img) = img
  /\ shape0 (header (detect_document_regions img)) = (shape0 img / 4)%Z
  /\ shape0 (body (detect_document_regions img))
     = (3 * shape0 img / 4 - shape0 img / 4)%Z
  /\ shape0 (footer (detect_document_regions img))
     = (shape0 img - 3 * shape0 img / 4)%Z.
Proof.
  unfold detect_document_regions. cbn [header body footer].
  unfold shape0. remember (Z.of_nat (length img)) as n eqn:En.
  assert (0 <= n / 4 <= 3 * n / 4 /\ 3 * n / 4 <= n)%Z as [H1 H2].
  { assert (0 <= n)%Z by lia. split; [split|].
    - by apply Z.div_pos.
    - apply Z.div_le_mono; lia.
    - apply Z.div_le_upper_bound; lia. }
  rewrite !slice_inside by lia.
  unfold slice_from, adjust_index. rewrite <- En.
  destruct (Z.ltb_spec (3 * n / 4) 0); [lia|].
  rewrite Z.min_l by lia. rewrite Z.sub_0_r.
  change (Z.to_nat 0) with 0%nat. rewrite drop_0.
  split; [|split; [|split]].
  - rewrite app_assoc, take_take_drop.
    replace (Z.to_nat (n / 4) + Z.to_nat (3 * n / 4 - n / 4))%nat
      with (Z.to_nat (3 * n / 4)) by lia.
    apply take_drop.
  - rewrite length_take. lia.
  - rewrite length_take, length_drop. lia.
  - rewrite length_drop. lia.
Qed.

(** ** The statistics of the orchestrator *)

Lemma percent_range (part whole : nat) :
  (0 < whole)%nat -> (part <= whole)%nat ->
  (0 <= percent part whole <= 100)%Q.
Proof.
  intros Hw Hp. unfold percent.
  assert (0 < inject_Z (Z.of_nat whole))%Q as Hpos.
  { change 0%Q with (inject_Z 0). rewrite <- Zlt_Qlt. lia. }
  assert (0 <= inject_Z (Z.of_nat part) / inject_Z (Z.of_nat whole))%Q as H0.
  { apply Qle_shift_div_l; [done|]. rewrite Qmult_0_l.
    change 0%Q with (inject_Z 0). rewrite <- Zle_Qle. lia. }
  assert (inject_Z (Z.of_nat part) / inject_Z (Z.of_nat whole) <= 1)%Q as H1.
  { apply Qle_shift_div_r; [done|]. rewrite Qmult_1_l.
    rewrite <- Zle_Qle. lia. }
  remember (inject_Z (Z.of_nat part) / inject_Z (Z.of_nat whole))%Q as q.
  split; lra.
Qed.

(** X16. After any number of calls of [process_invoice] on a fresh
    processor, [get_stats] returns the counters as they are and two
    rates between 0 and 100; before the first call both rates are 0,
    nothing being divided by the zero count. *)
Theorem stats_rates_range (self : InvoiceProcessorRPA)
    (files : list string) :
  counters (get_stats (process_each self initial_stats files).2)
  = (process_each self initial_stats files).2
  /\ (0 <= success_rate (get_stats (process_each self initial_stats files).2)
      <= 100)%Q
  /\ (0 <= manual_review_rate
             (get_stats (process_each self initial_stats files).2)
      <= 100)%Q
  /\ success_rate (get_stats initial_stats) = 0%Q
  /\ manual_review_rate (get_stats initial_stats) = 0%Q.
Proof.
  destruct (process_each_balanced self files initial_stats)
    as (Hb & _ & _); [reflexivity|].
  set (st := (process_each self initial_stats files).2) in *.
  unfold balanced in Hb. unfold get_stats.
  destruct (Nat.ltb_spec 0 (processed st)) as [Hp|Hp]; cbn [counters
    success_rate manual_review_rate].
  - split; [done|]. split; [apply percent_range; lia|].
    split; [apply percent_range; lia|]. done.
  - repeat split; done.
Qed.


(** ** What a result without the review flag guarantees *)





(** ** The thresholds of the business rules *)

(** X19. When the auto-approval threshold does not exceed the maximum
    amount, as with the default settings, the maximum-amount rule never
    decides the review flag: the flag is the one the other three rules
    give, and whenever the rule adds its note the note of the
    auto-approval rule stands just before it. *)
Theorem max_amount_rule_subsumed (s : Settings) (i : InvoiceData) :
  (AUTO_APPROVE_THRESHOLD s <= MAX_INVOICE_AMOUNT s)%Q ->
  requires_manual_review (_apply_business_rules s i)
  = requires_manual_review
      (rule_ai_confidence (rule_ocr_confidence s (rule_auto_approve s i)))
  /\ ((MAX_INVOICE_AMOUNT s < total_amount i)%Q ->
      exists rest,
        validation_notes (_apply_business_rules s i)
        = validation_notes i
          ++ [NoteAutoApprove (total_amount i);
              NoteMaxAmount (total_amount i)] ++ rest).
Proof.
  intros Hle.
  assert (Qltb (MAX_INVOICE_AMOUNT s) (total_amount i) = true ->
          Qltb (AUTO_APPROVE_THRESHOLD s) (total_amount i) = true) as Himp.
  { rewrite !Qltb_true. intros H. by eapply Qle_lt_trans. }
  split.
  - rewrite business_rules_flag.
    unfold rule_ai_confidence, rule_ocr_confidence, rule_auto_approve.
    rewrite !rule_flag.
    repeat match goal with
           | |- context [rule ?c ?n ?j] =>
               let Ht := fresh in
               let Ho := fresh in
               let Ha := fresh in
               destruct (rule_amounts c n j) as (_ & _ & _ & Ht & Ho & Ha);
               rewrite ?Ht, ?Ho, ?Ha; clear Ht Ho Ha
           end.
    destruct (Qltb (MAX_INVOICE_AMOUNT s) (total_amount i)) eqn:E;
      [|by rewrite orb_false_r].
    rewrite (Himp eq_refl). by rewrite !orb_true_r.
  - intros H. apply Qltb_true in H. rewrite business_rules_notes.
    rewrite H, (Himp H). eexists. reflexivity.
Qed.

Lemma max_amount_rule_subsumed_witness :
  exists rest,
    validation_notes (_apply_business_rules settings Samples.large_invoice)
    = [NoteAutoApprove 122000; NoteMaxAmount 122000] ++ rest.
Proof.
  apply (max_amount_rule_subsumed settings Samples.large_invoice).
  - vm_compute. discriminate.
  - vm_compute. reflexivity.
Defined.

(** ** The attachments the mailbox monitor keeps *)

Lemma lower_lower (c : ascii) : lower (lower c) = lower c.
Proof.
  destruct c as [[] [] [] [] [] [] [] []]; reflexivity.
Qed.

Lemma lower_str_lower (s : string) :
  lower_str (text (lower_str s)) = lower_str s.
Proof.
  unfold lower_str. rewrite chars_text, map_map.
  apply map_ext. exact lower_lower.
Qed.

Lemma starts_with_app (p l : list ascii) :
  starts_with p l = true <-> exists rest, l = p ++ rest.
Proof.
  revert l. induction p as [|a p IH]; intros l; simpl.
  - split; [intros _; by exists l | done].
  - destruct l as [|b l]; [split; [done | by intros [? ?]]|].
    rewrite andb_true_iff, IH. split.
    + intros [Hab [rest ->]]. apply Ascii.eqb_eq in Hab as ->. by exists rest.
    + intros [rest [= -> ->]]. split; [apply Ascii.eqb_refl | by exists rest].
Qed.

(** X20. [_is_invoice_file] does not depend on the case of the letters:
    two names with the same lower-case form get the same answer, so a
    name and its lower-case form do; and a name it accepts ends, in
    lower case, with one of the five extensions. *)
Theorem is_invoice_file_case_insensitive (a b : string) :
  (lower_str a = lower_str b -> _is_invoice_file a = _is_invoice_file b)
  /\ _is_invoice_file (text (lower_str a)) = _is_invoice_file a
  /\ (_is_invoice_file a = true ->
      exists stem ext,
        In ext valid_extensions /\ lower_str a = stem ++ chars ext).
Proof.
  split; [|split].
  - unfold _is_invoice_file. by intros ->.
  - unfold _is_invoice_file. by rewrite lower_str_lower.
  - unfold _is_invoice_file. intros H. apply andb_true_iff in H as [_ H].
    apply existsb_exists in H as (ext & Hin & H).
    unfold ends_with in H. apply starts_with_app in H as [rest H].
    exists (rev rest), ext. split; [done|].
    rewrite <- (rev_involutive (lower_str a)), H, rev_app_distr.
    by rewrite rev_involutive.
Qed.

(** ** The dates [_normalize_date] returns *)




